(** * calendarApp: the session flow of [src/App.tsx]

    A shallow embedding of the single-page calendar front-end: the two
    services [login] and [fetchMeetings], the [MeetingCard] component and
    the [App] component with its five [useState] cells, its mount effect
    and its three click handlers.

    Asynchronous code is embedded as a finite tree of operations
    ([Prog]): each node is one externally visible step of the JavaScript
    (a state setter, a [fetch], a timer, an assignment to
    [window.location.href], ...) and the continuation receives what the
    environment answers.  [run] interprets such a tree against a backend
    and a browser, and records every step together with the session state
    in which it was issued.  [run] is the run in which every awaited
    promise settles; [stall] cuts a program at a request that never
    does. *)

From Stdlib Require Import String Ascii List Bool Arith NArith Lia.
Import ListNotations.
Local Open Scope string_scope.
Local Open Scope list_scope.

Set Implicit Arguments.

(* ------------------------------------------------------------------ *)
(** ** Configuration *)

Definition USE_REAL_BACKEND : bool := true.
Definition API_BASE_URL : string := "http://localhost:3000".

(* ------------------------------------------------------------------ *)
(** ** Types *)

Record Attendee : Type := { attendee_email : string }.

Record Meeting : Type := {
  id : string;
  title : string;
  startTime : string;
  endTime : string;
  attendees : list Attendee;
  description : option string;
  link : option string
}.

Record User : Type := {
  name : string;
  email : string;
  avatar : string
}.

(** The shape held by the [data] state cell. *)
Record MeetingData : Type := {
  upcoming : list Meeting;
  past : list Meeting
}.

(** JavaScript truthiness of an optional string: [undefined], [null] and
    the empty string are falsy. *)
Definition truthy (s : option string) : bool :=
  match s with
  | Some EmptyString => false
  | Some _ => true
  | None => false
  end.

(** Values that a rejected promise carries. *)
Inductive JsError : Type :=
| TypeError (msg : string)
| SyntaxError (msg : string)
| Error (msg : string)
| DOMException (name : string).

(* ------------------------------------------------------------------ *)
(** ** The backend boundary *)

Inductive Method : Type := GET | POST.

Record Request : Type := { method : Method; url : string }.

(** The two calls the front-end issues. *)
Inductive Endpoint : Type := AuthLogin | ApiMeetings.

Definition request_of (e : Endpoint) : Request :=
  match e with
  | AuthLogin => {| method := POST; url := API_BASE_URL ++ "/auth/login" |}
  | ApiMeetings => {| method := GET; url := API_BASE_URL ++ "/api/meetings" |}
  end.

(** Decoded body of [POST /auth/login]: the two fields [login] reads.
    [None] stands for a field that is absent or [null]. *)
Record LoginData : Type := {
  data_user : option User;
  data_authUrl : option string
}.

Definition Payload (e : Endpoint) : Type :=
  match e with
  | AuthLogin => LoginData
  | ApiMeetings => MeetingData
  end.

(** What [fetch] resolves to.  [body = None] is a body that is not JSON,
    so that [res.json()] rejects. *)
Record Response (e : Endpoint) : Type := {
  status : nat;
  body : option (Payload e)
}.

(** [res.ok]: the status is in the range 200-299. *)
Definition ok {e} (res : Response e) : bool :=
  Nat.leb 200 (status res) && Nat.leb (status res) 299.

(** A backend answers each endpoint; [None] is a transport failure, in
    which case [fetch] itself rejects.  These are the requests that
    settle; a request that never settles is no answer of the backend, it
    is a program that stops at its await, see [stall]. *)
Definition Backend : Type := forall e : Endpoint, option (Response e).

(** What the page can observe of the browser's URL parser: whether a
    string assigned to [window.location.href] parses as a URL against the
    document's base.  One browser serves every run. *)
Class Browser : Type := { parsesAsUrl : string -> bool }.

(* ------------------------------------------------------------------ *)
(** ** Session state: the five [useState] cells of [App] *)

Record Session : Type := {
  useReal : bool;
  user : option User;
  data : MeetingData;
  loading : bool;
  error : option string
}.

Definition initialSession : Session :=
  {| useReal := USE_REAL_BACKEND;
     user := None;
     data := {| upcoming := []; past := [] |};
     loading := false;
     error := None |}.

(* ------------------------------------------------------------------ *)
(** ** Operations and programs *)

(** Service functions whose entry is marked in the trace. *)
Inductive Fn : Type := FnLogin | FnFetchMeetings.

Inductive Op : Type :=
| SetUseReal (b : bool)
| SetUser (u : option User)
| SetData (d : MeetingData)
| SetLoading (b : bool)
| SetError (e : option string)
| Enter (f : Fn) (mode : bool)          (* entry into a service function *)
| Fetch (e : Endpoint)                  (* fetch(url, {method}) and its await *)
| SetTimeout (ms : nat)                 (* a promise resolved by a timer *)
| ParseUrl (target : string)            (* the href setter parsing its argument *)
| SetLocationHref (target : string)     (* window.location.href = target *)
| GetLocationSearch                     (* window.location.search *)
| ReplaceState (target : string)        (* window.history.replaceState *)
| ConsoleError (label : string) (e : JsError).

(** What the environment hands back for each operation. *)
Definition Resp (o : Op) : Type :=
  match o with
  | Fetch e => option (Response e)
  | GetLocationSearch => string
  | ParseUrl _ => bool
  | _ => unit
  end.

Inductive Prog (A : Type) : Type :=
| Ret (a : A)
| Throw (e : JsError)
| Vis (o : Op) (k : Resp o -> Prog A).

Arguments Throw {A} e.

Fixpoint bind {A B} (p : Prog A) (f : A -> Prog B) : Prog B :=
  match p with
  | Ret a => f a
  | Throw e => Throw e
  | Vis o k => Vis o (fun r => bind (k r) f)
  end.

(** [try { p } catch (e) { h e }] *)
Fixpoint catch {A} (p : Prog A) (h : JsError -> Prog A) : Prog A :=
  match p with
  | Ret a => Ret a
  | Throw e => h e
  | Vis o k => Vis o (fun r => catch (k r) h)
  end.

(** [try { p } finally { f }] *)
Fixpoint finally {A} (p : Prog A) (f : Prog unit) : Prog A :=
  match p with
  | Ret a => bind f (fun _ => Ret a)
  | Throw e => bind f (fun _ => Throw e)
  | Vis o k => Vis o (fun r => finally (k r) f)
  end.

Definition perform (o : Op) : Prog (Resp o) := Vis o (fun r => Ret r).

Declare Scope prog_scope.
Delimit Scope prog_scope with prog.
Notation "x <- p ;; q" := (bind p (fun x => q))
  (at level 61, p at next level, right associativity) : prog_scope.
Notation "p ;; q" := (bind p (fun _ => q))
  (at level 61, right associativity) : prog_scope.
Local Open Scope prog_scope.

(** The operations at which an async function suspends. *)
Definition suspends (o : Op) : bool :=
  match o with
  | Fetch _ | SetTimeout _ => true
  | _ => false
  end.

(** A promise nobody awaits: a rejection does not reach the caller. *)
Definition detach (p : Prog unit) : Prog unit := catch p (fun _ => Ret tt).

(** [p(); k] where [p] is an async function that is called and not
    awaited and [k] is the synchronous rest of the caller: [p] runs up to
    its first suspension, the caller finishes, and [p] resumes when the
    awaited promise settles. *)
Fixpoint fork (p : Prog unit) (k : Prog unit) : Prog unit :=
  match p with
  | Ret _ => k
  | Throw _ => k
  | Vis o kp =>
      if suspends o
      then Vis o (fun r => finally k (detach (kp r)))
      else Vis o (fun r => fork (kp r) k)
  end.

(** A request that never settles.  [stall hung p] is [p] on a network
    where the requests to the endpoints in [hung] are issued and then
    never answered: the async function stops at that await for good, no
    handler and no [finally] block of it runs, and its promise stays
    pending, which is the result [None]. *)
Definition hangsAt (hung : Endpoint -> bool) (o : Op) : bool :=
  match o with
  | Fetch e => hung e
  | _ => false
  end.

Fixpoint stall {A} (hung : Endpoint -> bool) (p : Prog A) : Prog (option A) :=
  match p with
  | Ret a => Ret (Some a)
  | Throw e => Throw e
  | Vis o k =>
      Vis o (fun r => if hangsAt hung o then Ret None else stall hung (k r))
  end.

(* ------------------------------------------------------------------ *)
(** ** Services *)

Definition demoUser : User :=
  {| name := "Demo User";
     email := "demo@example.com";
     avatar := "https://ui-avatars.com/api/?name=Demo+User&background=0D8ABC&color=fff" |}.

(** [await fetch(...)]: rejects on a transport failure. *)
Definition fetch (e : Endpoint) : Prog (Response e) :=
  r <- perform (Fetch e) ;;
  match r with
  | Some res => Ret res
  | None => Throw (TypeError "Failed to fetch")
  end.

(** [window.location.href = target]: the setter parses [target], throws
    a [SyntaxError] DOMException when it does not parse, and starts the
    navigation when it does. *)
Definition assignHref (target : string) : Prog unit :=
  parsed <- perform (ParseUrl target) ;;
  if parsed then perform (SetLocationHref target)
  else Throw (DOMException "SyntaxError").

(** [await res.json()] *)
Definition json {e} (res : Response e) : Prog (Payload e) :=
  match body res with
  | Some d => Ret d
  | None => Throw (SyntaxError "Unexpected token")
  end.

Definition login (useReal : bool) : Prog (option User) :=
  perform (Enter FnLogin useReal) ;;
  if negb useReal then
    (* Mock Login *)
    perform (SetTimeout 800) ;;
    Ret (Some demoUser)
  else
    (* Real Login *)
    catch
      (res <- fetch AuthLogin ;;
       data <- json res ;;
       match data_user data with
       | Some u => Ret (Some u)                         (* Already logged in *)
       | None =>
           match data_authUrl data with
           | Some (String _ _ as authUrl) =>
               assignHref authUrl ;;                    (* Redirect to Google *)
               Ret None
           | _ => Throw (Error "Server returned invalid login state")
           end
       end)
      (fun error =>
         perform (ConsoleError "Login Error:" error) ;;
         Throw error).

Definition fetchMeetings (useReal : bool) : Prog MeetingData :=
  perform (Enter FnFetchMeetings useReal) ;;
  if negb useReal then
    (* Mock Data *)
    Ret {| upcoming := []; past := [] |}
  else
    res <- fetch ApiMeetings ;;
    if negb (ok res) then Throw (Error "Failed to fetch")
    else json res.

(* ------------------------------------------------------------------ *)
(** ** The login handler of [App] *)

Definition connectionFailed : string :=
  "Connection failed. Is the backend running on port 3000?".

(** [handleLogin] closes over the [useReal] of the render that created
    it, so the captured value is an argument. *)
Definition handleLogin (useReal : bool) : Prog unit :=
  perform (SetLoading true) ;;
  perform (SetError None) ;;
  finally
    (catch
       (userData <- login useReal ;;
        match userData with
        | Some u =>
            perform (SetUser (Some u)) ;;
            meetings <- fetchMeetings useReal ;;
            perform (SetData meetings)
        | None => Ret tt
        end)
       (fun _ => perform (SetError (Some connectionFailed))))
    (perform (SetLoading false)).

(* ------------------------------------------------------------------ *)
(** ** The browser and the interpreter *)

(** One recorded step: the operation and the session state in which it
    was issued. *)
Definition Entry : Type := (Op * Session)%type.

Record World : Type := {
  session : Session;
  location : string;             (* path, query and fragment of the page URL *)
  navigation : option string;    (* target assigned to window.location.href *)
  trace : list Entry
}.

Definition set_useReal (b : bool) (s : Session) : Session :=
  {| useReal := b; user := user s; data := data s;
     loading := loading s; error := error s |}.
Definition set_user (u : option User) (s : Session) : Session :=
  {| useReal := useReal s; user := u; data := data s;
     loading := loading s; error := error s |}.
Definition set_data (d : MeetingData) (s : Session) : Session :=
  {| useReal := useReal s; user := user s; data := d;
     loading := loading s; error := error s |}.
Definition set_loading (b : bool) (s : Session) : Session :=
  {| useReal := useReal s; user := user s; data := data s;
     loading := b; error := error s |}.
Definition set_error (e : option string) (s : Session) : Session :=
  {| useReal := useReal s; user := user s; data := data s;
     loading := loading s; error := e |}.

(** The prefix of [s] before the first [c], and the suffix from it on. *)
Fixpoint take_until (c : ascii) (s : string) : string :=
  match s with
  | EmptyString => EmptyString
  | String a r => if Ascii.eqb a c then EmptyString else String a (take_until c r)
  end.

Fixpoint drop_until (c : ascii) (s : string) : string :=
  match s with
  | EmptyString => EmptyString
  | String a r => if Ascii.eqb a c then s else drop_until c r
  end.

(** [window.location.search]: the query with its question mark, empty
    when the URL has no query or an empty one. *)
Definition search_of (loc : string) : string :=
  match drop_until "?" (take_until "#" loc) with
  | String _ EmptyString => EmptyString
  | q => q
  end.

(** The effect of a step on the state cells. *)
Definition reduce (o : Op) (s : Session) : Session :=
  match o with
  | SetUseReal b => set_useReal b s
  | SetUser u => set_user u s
  | SetData d => set_data d s
  | SetLoading b => set_loading b s
  | SetError e => set_error e s
  | _ => s
  end.

(** What the environment answers. *)
Definition respond `{Browser} (be : Backend) (o : Op) (w : World) : Resp o :=
  match o return Resp o with
  | Fetch e => be e
  | GetLocationSearch => search_of (location w)
  | ParseUrl target => parsesAsUrl target
  | _ => tt
  end.

Definition step `{Browser} (be : Backend) (o : Op) (w : World) : Resp o * World :=
  (respond be o w,
   {| session := reduce o (session w);
      location := match o with
                  | ReplaceState target => target
                  | _ => location w
                  end;
      navigation := match o with
                    | SetLocationHref target => Some target
                    | _ => navigation w
                    end;
      trace := trace w ++ [(o, session w)] |}).

(** How a promise settles. *)
Inductive Outcome (A : Type) : Type :=
| Resolved (a : A)
| Rejected (e : JsError).

Arguments Rejected {A} e.

Fixpoint run `{Browser} {A} (be : Backend) (p : Prog A) (w : World)
  : Outcome A * World :=
  match p with
  | Ret a => (Resolved a, w)
  | Throw e => (Rejected e, w)
  | Vis o k => let (r, w') := step be o w in run be (k r) w'
  end.

Definition exec `{Browser} {A} (be : Backend) (p : Prog A) (w : World) : World :=
  snd (run be p w).

(* ------------------------------------------------------------------ *)
(** ** [URLSearchParams] *)

Fixpoint split_on (c : ascii) (s : string) : list string :=
  match s with
  | EmptyString => [EmptyString]
  | String a r =>
      if Ascii.eqb a c then EmptyString :: split_on c r
      else match split_on c r with
           | h :: t => String a h :: t
           | [] => [String a EmptyString]
           end
  end.

Definition hex_digit (a : ascii) : option nat :=
  let n := nat_of_ascii a in
  if Nat.leb 48 n && Nat.leb n 57 then Some (n - 48)
  else if Nat.leb 65 n && Nat.leb n 70 then Some (n - 55)
  else if Nat.leb 97 n && Nat.leb n 102 then Some (n - 87)
  else None.

(** Form decoding of one name or value, byte by byte: [+] is a space and
    [%XY] is the byte with that hexadecimal code. *)
Fixpoint form_decode (s : string) : string :=
  match s with
  | EmptyString => EmptyString
  | String c rest =>
      if Ascii.eqb c "+" then String " " (form_decode rest)
      else if Ascii.eqb c "%" then
        match rest with
        | String h1 (String h2 r) =>
            match hex_digit h1, hex_digit h2 with
            | Some a, Some b => String (ascii_of_nat (16 * a + b)) (form_decode r)
            | _, _ => String c (form_decode rest)
            end
        | _ => String c (form_decode rest)
        end
      else String c (form_decode rest)
  end.

Definition parse_pair (piece : string) : string * string :=
  let n := take_until "=" piece in
  let v := match drop_until "=" piece with
           | String _ r => r
           | EmptyString => EmptyString
           end in
  (form_decode n, form_decode v).

(** [new URLSearchParams(search)]: the ordered list of name/value pairs. *)
Definition URLSearchParams (search : string) : list (string * string) :=
  let q := match search with
           | String "?" r => r
           | _ => search
           end in
  map parse_pair (filter (fun piece => negb (String.eqb piece EmptyString))
                         (split_on "&" q)).

(** [params.get(key)]: the first value under [key], or [null]. *)
Fixpoint params_get (params : list (string * string)) (key : string) : option string :=
  match params with
  | [] => None
  | (n, v) :: rest => if String.eqb n key then Some v else params_get rest key
  end.

Definition is_string (o : option string) (s : string) : bool :=
  match o with
  | Some v => String.eqb v s
  | None => false
  end.

(* ------------------------------------------------------------------ *)
(** ** Handle Google Redirect: the mount effect of [App] *)

(** The effect has an empty dependency list, so it runs with the
    [useReal] of the first render; [handleLogin()] is called and not
    awaited. *)
Definition mountEffect (useReal : bool) : Prog unit :=
  search <- perform GetLocationSearch ;;
  let params := URLSearchParams search in
  if is_string (params_get params "status") "success" && useReal then
    fork (handleLogin useReal) (perform (ReplaceState "/"))
  else Ret tt.

(* ------------------------------------------------------------------ *)
(** ** Components *)

(** What a component can observe of its surroundings besides its props. *)
Record Ambient : Type := {
  locale : string;
  timeZone : string;
  now : N                        (* the clock, as [Date.now()] would read it *)
}.

Inductive Content : Type :=
| Spinner
| Icon (glyph : string)
| Text (s : string).

Record Button : Type := {
  content : Content;
  disabled : bool;
  onClick : Prog unit
}.

(** The parts of a meeting card that depend on the meeting. *)
Record Card : Type := {
  card_date : string;
  card_title : string;
  card_time : string;
  card_attendees : nat;
  card_video : bool
}.

Record Section_ : Type := {
  cards : list Card;
  placeholder : option string
}.

Inductive View : Type :=
| LoginScreen (toggle : Button) (signIn : Button) (errorBox : option string)
| Dashboard (logout : Button) (upcomingSection : Section_) (pastSection : Section_).

Section Components.

(** The engine's date formatting: locale, time zone and the timestamp
    text determine the result.  [toLocaleTimeString] is the variant with
    two-digit hour and minute. *)
Variable toLocaleDateString : string -> string -> string -> string.
Variable toLocaleTimeString : string -> string -> string -> string.

Definition MeetingCard (amb : Ambient) (meeting : Meeting) : Card :=
  {| card_date := toLocaleDateString (locale amb) (timeZone amb) (startTime meeting);
     card_title := title meeting;
     card_time := toLocaleTimeString (locale amb) (timeZone amb) (startTime meeting);
     card_attendees := length (attendees meeting);
     card_video := truthy (link meeting) |}.

Definition meetingSection (amb : Ambient) (ms : list Meeting) (empty : string)
  : Section_ :=
  {| cards := map (MeetingCard amb) ms;
     placeholder := if Nat.eqb (length ms) 0 then Some empty else None |}.

Definition App (amb : Ambient) (s : Session) : View :=
  match user s with
  | None =>
      LoginScreen
        {| content := Text ("Mode: " ++
                            (if useReal s then "Real Backend" else "Mock Data"));
           disabled := false;
           onClick := perform (SetUseReal (negb (useReal s))) |}
        {| content := if loading s then Spinner else Text "Sign in with Google";
           disabled := loading s;
           onClick := handleLogin (useReal s) |}
        (if truthy (error s) then error s else None)
  | Some _ =>
      Dashboard
        {| content := Icon "LogOut";
           disabled := false;
           onClick := perform (SetUser None) |}
        (meetingSection amb (upcoming (data s)) "No upcoming meetings.")
        (meetingSection amb (past (data s)) "No past meetings.")
  end.

End Components.

(** A click runs the handler of an enabled button; its promise is not
    awaited by anyone. *)
Definition click `{Browser} (be : Backend) (b : Button) (w : World) : World :=
  if disabled b then w else exec be (detach (onClick b)) w.

Definition toggleButton (v : View) : option Button :=
  match v with
  | LoginScreen t _ _ => Some t
  | Dashboard _ _ _ => None
  end.

Definition signInButton (v : View) : option Button :=
  match v with
  | LoginScreen _ b _ => Some b
  | Dashboard _ _ _ => None
  end.

Definition logoutButton (v : View) : option Button :=
  match v with
  | LoginScreen _ _ _ => None
  | Dashboard b _ _ => Some b
  end.

Definition shownError (v : View) : option string :=
  match v with
  | LoginScreen _ _ e => e
  | Dashboard _ _ _ => None
  end.

(** Every meeting card on screen. *)
Definition shownCards (v : View) : list Card :=
  match v with
  | LoginScreen _ _ _ => []
  | Dashboard _ up pa => cards up ++ cards pa
  end.

Definition isLoginScreen (v : View) : bool :=
  match v with
  | LoginScreen _ _ _ => true
  | Dashboard _ _ _ => false
  end.

(** [press pick] clicks the control that [pick] selects in the current
    view; a control that is not on screen cannot be clicked. *)
Definition press `{Browser} (pick : View -> option Button)
    (dfmt tfmt : string -> string -> string -> string) (amb : Ambient)
    (be : Backend) (w : World) : World :=
  match pick (App dfmt tfmt amb (session w)) with
  | Some b => click be b w
  | None => w
  end.

(** The page when it loads at [loc]: first render, then the mount effect. *)
Definition freshWorld (loc : string) : World :=
  {| session := initialSession; location := loc;
     navigation := None; trace := [] |}.

Definition mount `{Browser} (be : Backend) (loc : string) : World :=
  exec be (mountEffect (useReal initialSession)) (freshWorld loc).

(* ------------------------------------------------------------------ *)
(** ** Controller states *)

(** The session flow keeps no state variable of its own: which of the
    four controller states it is in is read off the cells [loading],
    [user] and [error].  While [handleLogin] is between its first and its
    last step [loading] is set, and that is [Authenticating]; otherwise
    the cells decide as they decide the view in [App]. *)
Module Phase.
Inductive t : Type := LoggedOut | Authenticating | LoggedIn | Error.
End Phase.

Definition phase (s : Session) : Phase.t :=
  if loading s then Phase.Authenticating
  else match user s with
       | Some _ => Phase.LoggedIn
       | None => if truthy (error s) then Phase.Error else Phase.LoggedOut
       end.

(* ------------------------------------------------------------------ *)
(** ** Reading traces *)

(** The entries recorded between world [w] and a later world [w']. *)
Definition since (w w' : World) : list Entry :=
  skipn (length (trace w)) (trace w').

Definition ops (tr : list Entry) : list Op := map fst tr.

Definition isEnter (f : Fn) (o : Op) : bool :=
  match o, f with
  | Enter FnLogin _, FnLogin => true
  | Enter FnFetchMeetings _, FnFetchMeetings => true
  | _, _ => false
  end.

Definition isFetch (e : Endpoint) (o : Op) : bool :=
  match o, e with
  | Fetch AuthLogin, AuthLogin => true
  | Fetch ApiMeetings, ApiMeetings => true
  | _, _ => false
  end.

Definition isSetUser (o : Op) : bool :=
  match o with
  | SetUser _ => true
  | _ => false
  end.

Definition isRedirect (o : Op) : bool :=
  match o with
  | SetLocationHref _ => true
  | _ => false
  end.

(** The steps that belong to [login]. *)
Definition isLoginStep (o : Op) : bool :=
  match o with
  | Enter FnLogin _ | Fetch AuthLogin | SetTimeout _
  | ParseUrl _ | SetLocationHref _ | ConsoleError _ _ => true
  | _ => false
  end.

(** The steps that write one of the five state cells. *)
Definition isStateChange (o : Op) : bool :=
  match o with
  | SetUseReal _ | SetUser _ | SetData _ | SetLoading _ | SetError _ => true
  | _ => false
  end.

Definition occurrences (P : Op -> bool) (tr : list Entry) : nat :=
  length (filter (fun en => P (fst en)) tr).

(** The entries before, and after, the first step that satisfies [P]. *)
Fixpoint before (P : Op -> bool) (tr : list Entry) : list Entry :=
  match tr with
  | [] => []
  | en :: rest => if P (fst en) then [] else en :: before P rest
  end.

Fixpoint after (P : Op -> bool) (tr : list Entry) : list Entry :=
  match tr with
  | [] => []
  | en :: rest => if P (fst en) then rest else after P rest
  end.

(** The session states in which the steps satisfying [P] were issued. *)
Definition statesAt (P : Op -> bool) (tr : list Entry) : list Session :=
  map snd (filter (fun en => P (fst en)) tr).

(* ------------------------------------------------------------------ *)
(** ** Straight-line scripts

    A run of [handleLogin] has no loop and branches only on what the
    backend answers, so each run is a fixed list of steps.  The scripts
    below name that list; [run_handleLogin_real] and
    [run_handleLogin_stub] prove that the handler performs exactly it. *)

Fixpoint steps `{Browser} (be : Backend) (os : list Op) (w : World) : World :=
  match os with
  | [] => w
  | o :: rest => steps be rest (snd (step be o w))
  end.

(** The entries a script records when started in session [s], and the
    session it leaves. *)
Fixpoint entries (os : list Op) (s : Session) : list Entry :=
  match os with
  | [] => []
  | o :: rest => (o, s) :: entries rest (reduce o s)
  end.

Definition sessionAfter (os : list Op) (s : Session) : Session :=
  fold_left (fun acc o => reduce o acc) os s.

Inductive LoginAnswer : Type :=
| GaveUser (u : User)
| GaveRedirect (target : string)
| GaveBadRedirect (target : string)     (* a target the browser does not parse *)
| GaveNothing (e : JsError).

Definition loginAnswer `{Browser} (be : Backend) : LoginAnswer :=
  match be AuthLogin with
  | None => GaveNothing (TypeError "Failed to fetch")
  | Some res =>
      match body res with
      | None => GaveNothing (SyntaxError "Unexpected token")
      | Some d =>
          match data_user d, data_authUrl d with
          | Some u, _ => GaveUser u
          | None, Some (String _ _ as target) =>
              if parsesAsUrl target then GaveRedirect target
              else GaveBadRedirect target
          | None, _ => GaveNothing (Error "Server returned invalid login state")
          end
      end
  end.

Inductive MeetingsAnswer : Type :=
| GaveMeetings (d : MeetingData)
| GaveFailure (e : JsError).

Definition meetingsAnswer (be : Backend) : MeetingsAnswer :=
  match be ApiMeetings with
  | None => GaveFailure (TypeError "Failed to fetch")
  | Some res =>
      if ok res then
        match body res with
        | Some d => GaveMeetings d
        | None => GaveFailure (SyntaxError "Unexpected token")
        end
      else GaveFailure (Error "Failed to fetch")
  end.

Definition loginOutcome `{Browser} (be : Backend) : Outcome (option User) :=
  match loginAnswer be with
  | GaveUser u => Resolved (Some u)
  | GaveRedirect _ => Resolved None
  | GaveBadRedirect _ => Rejected (DOMException "SyntaxError")
  | GaveNothing e => Rejected e
  end.

Definition loginScript `{Browser} (be : Backend) : list Op :=
  [Enter FnLogin true; Fetch AuthLogin] ++
  match loginAnswer be with
  | GaveUser _ => []
  | GaveRedirect target => [ParseUrl target; SetLocationHref target]
  | GaveBadRedirect target =>
      [ParseUrl target; ConsoleError "Login Error:" (DOMException "SyntaxError")]
  | GaveNothing e => [ConsoleError "Login Error:" e]
  end.

(** What follows [login] inside [handleLogin]. *)
Definition afterLoginScript `{Browser} (be : Backend) : list Op :=
  match loginAnswer be with
  | GaveUser u =>
      [SetUser (Some u); Enter FnFetchMeetings true; Fetch ApiMeetings] ++
      match meetingsAnswer be with
      | GaveMeetings d => [SetData d]
      | GaveFailure _ => [SetError (Some connectionFailed)]
      end
  | GaveRedirect _ => []
  | GaveBadRedirect _ => [SetError (Some connectionFailed)]
  | GaveNothing _ => [SetError (Some connectionFailed)]
  end ++ [SetLoading false].

Definition realScript `{Browser} (be : Backend) : list Op :=
  [SetLoading true; SetError None] ++ loginScript be ++ afterLoginScript be.

Definition stubScript : list Op :=
  [SetLoading true; SetError None;
   Enter FnLogin false; SetTimeout 800;
   SetUser (Some demoUser);
   Enter FnFetchMeetings false;
   SetData {| upcoming := []; past := [] |};
   SetLoading false].

(** The mount effect in real mode on a URL that carries the marker: the
    marker is dropped while the login request is in flight. *)
Definition redirectScript `{Browser} (be : Backend) : list Op :=
  [GetLocationSearch; SetLoading true; SetError None] ++
  [Enter FnLogin true; Fetch AuthLogin; ReplaceState "/"] ++
  skipn 2 (loginScript be) ++ afterLoginScript be.

(** The marker test of the mount effect. *)
Definition hasMarker (loc : string) : bool :=
  is_string (params_get (URLSearchParams (search_of loc)) "status") "success".

(* ------------------------------------------------------------------ *)
(** ** Sample data, used to exhibit the theorems on concrete runs *)

Module Sample.

(** A stand-in for the browser's URL parser, right on the targets used
    below: it accepts the absolute [https] URLs and refuses [http://[]. *)
#[global] Instance browser : Browser :=
  {| parsesAsUrl := fun target => String.prefix "https://" target |}.

Definition alice : User :=
  {| name := "Alice"; email := "alice@example.org";
     avatar := "https://example.org/alice.png" |}.

Definition standup : Meeting :=
  {| id := "m1"; title := "Standup";
     startTime := "2024-05-01T09:00:00Z"; endTime := "2024-05-01T09:15:00Z";
     attendees := [ {| attendee_email := "bob@example.org" |};
                    {| attendee_email := "carol@example.org" |} ];
     description := None;
     link := Some "https://meet.example.org/standup" |}.

Definition retro : Meeting :=
  {| id := "m0"; title := "Retro";
     startTime := "2024-04-01T15:00:00Z"; endTime := "2024-04-01T16:00:00Z";
     attendees := [];
     description := Some "Sprint 12";
     link := None |}.

Definition meetings : MeetingData :=
  {| upcoming := [standup]; past := [retro] |}.

Definition reply {e} (code : nat) (b : option (Payload e)) : option (Response e) :=
  Some {| status := code; body := b |}.

(** The user has a session and the calendar is served. *)
Definition healthy : Backend := fun e =>
  match e with
  | AuthLogin => reply (e := AuthLogin) 200
                   (Some {| data_user := Some alice; data_authUrl := None |})
  | ApiMeetings => reply (e := ApiMeetings) 200 (Some meetings)
  end.

(** The user has a session and [/api/meetings] answers HTTP 500. *)
Definition meetings500 : Backend := fun e =>
  match e with
  | AuthLogin => reply (e := AuthLogin) 200
                   (Some {| data_user := Some alice; data_authUrl := None |})
  | ApiMeetings => reply (e := ApiMeetings) 500 None
  end.

Definition authUrl : string := "https://accounts.google.com/o/oauth2/auth".

(** No session yet: the backend sends the browser to the provider. *)
Definition redirecting : Backend := fun e =>
  match e with
  | AuthLogin => reply (e := AuthLogin) 200
                   (Some {| data_user := None; data_authUrl := Some authUrl |})
  | ApiMeetings => reply (e := ApiMeetings) 401 None
  end.

(** The backend is not running. *)
Definition down : Backend := fun _ => None.

(** The login endpoint answers JSON with neither field. *)
Definition confused : Backend := fun e =>
  match e with
  | AuthLogin => reply (e := AuthLogin) 200
                   (Some {| data_user := None; data_authUrl := None |})
  | ApiMeetings => reply (e := ApiMeetings) 200 (Some meetings)
  end.

Definition amb : Ambient :=
  {| locale := "en-GB"; timeZone := "Europe/London"; now := 1714550400%N |}.

Definition ambLater : Ambient :=
  {| locale := "en-GB"; timeZone := "Europe/London"; now := 1714636800%N |}.

(** A stand-in for the engine's formatter: it shows its three inputs. *)
Definition fmt (tag loc tz t : string) : string :=
  tag ++ "(" ++ loc ++ "," ++ tz ++ "," ++ t ++ ")".

Definition view (s : Session) : View := App (fmt "date") (fmt "time") amb s.

Definition pressOn (pick : View -> option Button) (be : Backend) (w : World)
  : World :=
  press pick (fmt "date") (fmt "time") amb be w.

(** The page after the provider has redirected back and [healthy] has
    served the login and the calendar. *)
Definition loggedIn : World := mount healthy "/?status=success".

End Sample.

(* ------------------------------------------------------------------ *)
(** ** Further readings of views, URLs and scenarios *)

Definition upcomingSectionOf (v : View) : option Section_ :=
  match v with
  | LoginScreen _ _ _ => None
  | Dashboard _ up _ => Some up
  end.

Definition pastSectionOf (v : View) : option Section_ :=
  match v with
  | LoginScreen _ _ _ => None
  | Dashboard _ _ pa => Some pa
  end.

Definition isAnyFetch (o : Op) : bool :=
  match o with
  | Fetch _ => true
  | _ => false
  end.

(** The steps of the mount effect that are not steps of [handleLogin]. *)
Definition isMountOnly (o : Op) : bool :=
  match o with
  | GetLocationSearch | ReplaceState _ => true
  | _ => false
  end.

(** The mode a service was entered with, for the steps that enter one. *)
Definition enteredMode (o : Op) : option bool :=
  match o with
  | Enter _ m => Some m
  | _ => None
  end.

(** Characters that stand for themselves in a query value: none of the
    separators [#] and [&] and none of the escapes [+] and [%]. *)
Definition plainChar (c : ascii) : bool :=
  negb (Ascii.eqb c "#" || Ascii.eqb c "&" || Ascii.eqb c "+" || Ascii.eqb c "%").

Fixpoint plain (s : string) : bool :=
  match s with
  | EmptyString => true
  | String c r => plainChar c && plain r
  end.

Definition isSetLoading (o : Op) : bool :=
  match o with
  | SetLoading _ => true
  | _ => false
  end.

Definition isConsoleError (o : Op) : bool :=
  match o with
  | ConsoleError _ _ => true
  | _ => false
  end.

Module Fixture.

(** The login endpoint answers HTTP 500, and the body still carries the
    user. *)
Definition loginStatus500 : Backend := fun e =>
  match e with
  | AuthLogin => Sample.reply (e := AuthLogin) 500
                   (Some {| data_user := Some Sample.alice; data_authUrl := None |})
  | ApiMeetings => Sample.reply (e := ApiMeetings) 200 (Some Sample.meetings)
  end.

(** The login answer carries a user and a redirect target at once. *)
Definition userAndAuthUrl : Backend := fun e =>
  match e with
  | AuthLogin => Sample.reply (e := AuthLogin) 200
                   (Some {| data_user := Some Sample.alice;
                            data_authUrl := Some Sample.authUrl |})
  | ApiMeetings => Sample.reply (e := ApiMeetings) 200 (Some Sample.meetings)
  end.

(** The login answer carries a redirect target that is no URL. *)
Definition brokenAuthUrl : string := "http://[".

Definition unparseableAuthUrl : Backend := fun e =>
  match e with
  | AuthLogin => Sample.reply (e := AuthLogin) 200
                   (Some {| data_user := None; data_authUrl := Some brokenAuthUrl |})
  | ApiMeetings => Sample.reply (e := ApiMeetings) 200 (Some Sample.meetings)
  end.

(** The meetings endpoint answers 404 with a well-formed collection. *)
Definition meetings404WithBody : Backend := fun e =>
  match e with
  | AuthLogin => Sample.reply (e := AuthLogin) 200
                   (Some {| data_user := Some Sample.alice; data_authUrl := None |})
  | ApiMeetings => Sample.reply (e := ApiMeetings) 404 (Some Sample.meetings)
  end.



(** A page on which an earlier attempt failed: the login screen with the
    error box. *)
Definition afterFailure : World :=
  Sample.pressOn signInButton Sample.down (freshWorld "/").

(** A page in the middle of a sign-in. *)
Definition busy : World :=
  {| session := set_loading true initialSession; location := "/";
     navigation := None; trace := [] |}.

(** The freshly loaded page switched to stub mode. *)
Definition stubPage : World :=
  Sample.pressOn toggleButton Sample.down (freshWorld "/").

(** Another record for the same slot: other id, end, description, guests
    and link, same start, title, number of guests and a link. *)
Definition standupTwin : Meeting :=
  {| id := "m7"; title := "Standup";
     startTime := "2024-05-01T09:00:00Z"; endTime := "2024-05-01T10:00:00Z";
     attendees := [ {| attendee_email := "dave@example.org" |};
                    {| attendee_email := "erin@example.org" |} ];
     description := Some "moved to room 2";
     link := Some "https://meet.example.org/other" |}.

End Fixture.

(* ================================================================== *)
(** * Properties *)

Arguments ok : simpl never.

Unset Implicit Arguments.

(** ** The interpreter follows the structure of the program *)

Lemma run_bind {browser : Browser} {A B} be (p : Prog A) (f : A -> Prog B) w :
  run be (bind p f) w =
  match run be p w with
  | (Resolved a, w') => run be (f a) w'
  | (Rejected e, w') => (Rejected e, w')
  end.
Proof.
  revert w. induction p as [a|e|o k IH]; intros w; cbn; auto.
Qed.

Lemma run_catch {browser : Browser} {A} be (p : Prog A) (h : JsError -> Prog A) w :
  run be (catch p h) w =
  match run be p w with
  | (Resolved a, w') => (Resolved a, w')
  | (Rejected e, w') => run be (h e) w'
  end.
Proof.
  revert w. induction p as [a|e|o k IH]; intros w; cbn; auto.
Qed.

Lemma run_finally {browser : Browser} {A} be (p : Prog A) (f : Prog unit) w :
  run be (finally p f) w =
  match run be p w with
  | (r, w') =>
      match run be f w' with
      | (Resolved _, w'') => (r, w'')
      | (Rejected e, w'') => (Rejected e, w'')
      end
  end.
Proof.
  revert w. induction p as [a|e|o k IH]; intros w; cbn; auto.
  - rewrite run_bind. destruct (run be f w) as [[[]|e] w']; reflexivity.
  - rewrite run_bind. destruct (run be f w) as [[[]|e'] w']; reflexivity.
Qed.

Lemma run_detach {browser : Browser} be (p : Prog unit) w w' :
  run be p w = (Resolved tt, w') -> run be (detach p) w = (Resolved tt, w').
Proof. intros H. unfold detach. now rewrite run_catch, H. Qed.

Lemma skipn_exact {A} (l m : list A) : skipn (length l) (l ++ m) = m.
Proof. induction l; simpl; auto. Qed.

Lemma run_perform {browser : Browser} be o w :
  run be (perform o) w = (Resolved (respond be o w), snd (step be o w)).
Proof. reflexivity. Qed.

(** ** The handlers perform their scripts *)

Ltac scripts :=
  unfold realScript, redirectScript, loginScript, afterLoginScript.

Ltac by_answer be :=
  destruct (loginAnswer be); try destruct (meetingsAnswer be).

Lemma run_login_stub {browser : Browser} be w :
  run be (login false) w =
  (Resolved (Some demoUser), steps be [Enter FnLogin false; SetTimeout 800] w).
Proof. reflexivity. Qed.

Lemma run_login_real {browser : Browser} be w :
  run be (login true) w = (loginOutcome be, steps be (loginScript be) w).
Proof.
  unfold login, assignHref, loginScript, loginOutcome, loginAnswer. cbn.
  destruct (be AuthLogin) as [[st [[[u|] [[|c a]|]]|]]|]; cbn; try reflexivity.
  destruct (parsesAsUrl (String c a)); reflexivity.
Qed.

Lemma run_fetchMeetings_real {browser : Browser} be w :
  run be (fetchMeetings true) w =
  (match meetingsAnswer be with
   | GaveMeetings d => Resolved d
   | GaveFailure e => Rejected e
   end,
   steps be [Enter FnFetchMeetings true; Fetch ApiMeetings] w).
Proof.
  unfold fetchMeetings, meetingsAnswer. cbn.
  destruct (be ApiMeetings) as [[st [d|]]|]; cbn; try reflexivity.
  all: destruct (ok _); reflexivity.
Qed.

Lemma run_handleLogin_stub {browser : Browser} be w :
  run be (handleLogin false) w = (Resolved tt, steps be stubScript w).
Proof. reflexivity. Qed.

Lemma run_handleLogin_real {browser : Browser} be w :
  run be (handleLogin true) w = (Resolved tt, steps be (realScript be) w).
Proof.
  unfold handleLogin.
  rewrite run_bind, run_perform, run_bind, run_perform.
  rewrite run_finally, run_catch, run_bind, run_login_real.
  scripts. unfold loginOutcome.
  destruct (loginAnswer be) as [u|target|target|e].
  - rewrite run_bind, run_perform, run_bind, run_fetchMeetings_real.
    destruct (meetingsAnswer be); reflexivity.
  - reflexivity.
  - reflexivity.
  - reflexivity.
Qed.

Lemma run_mountEffect_marker {browser : Browser} be w :
  hasMarker (location w) = true ->
  run be (mountEffect true) w = (Resolved tt, steps be (redirectScript be) w).
Proof.
  intros H.
  change (run be (mountEffect true) w)
    with (run be (if hasMarker (location w) && true
                  then fork (handleLogin true) (perform (ReplaceState "/"))
                  else Ret tt)
              (snd (step be GetLocationSearch w))).
  rewrite H. cbn [andb].
  scripts.
  unfold handleLogin, login, assignHref, fetchMeetings, loginAnswer, meetingsAnswer.
  cbn.
  destruct (be AuthLogin) as [[st [[[u|] [[|c a]|]]|]]|]; cbn; try reflexivity.
  - destruct (be ApiMeetings) as [[st2 [d|]]|]; cbn; try reflexivity.
    all: destruct (ok _); reflexivity.
  - destruct (be ApiMeetings) as [[st2 [d|]]|]; cbn; try reflexivity.
    all: destruct (ok _); reflexivity.
  - destruct (be ApiMeetings) as [[st2 [d|]]|]; cbn; try reflexivity.
    all: destruct (ok _); reflexivity.
  - destruct (parsesAsUrl (String c a)); reflexivity.
Qed.

Lemma run_mountEffect_plain {browser : Browser} be mode w :
  hasMarker (location w) && mode = false ->
  run be (mountEffect mode) w = (Resolved tt, steps be [GetLocationSearch] w).
Proof.
  intros H.
  change (run be (mountEffect mode) w)
    with (run be (if hasMarker (location w) && mode
                  then fork (handleLogin mode) (perform (ReplaceState "/"))
                  else Ret tt)
              (snd (step be GetLocationSearch w))).
  rewrite H. reflexivity.
Qed.

Lemma trace_steps {browser : Browser} be os w :
  trace (steps be os w) = trace w ++ entries os (session w).
Proof.
  revert w. induction os as [|o os IH]; intros w; cbn [steps entries].
  - now rewrite app_nil_r.
  - rewrite IH. cbn. now rewrite <- app_assoc.
Qed.

Lemma since_steps {browser : Browser} be os w : since w (steps be os w) = entries os (session w).
Proof. unfold since. now rewrite trace_steps, skipn_exact. Qed.

Lemma session_steps {browser : Browser} be os w : session (steps be os w) = sessionAfter os (session w).
Proof.
  unfold sessionAfter. revert w. induction os as [|o os IH]; intros w; cbn; auto.
Qed.

Lemma click_signIn {browser : Browser} be s w :
  session w = s -> loading s = false ->
  forall dfmt tfmt amb b,
  signInButton (App dfmt tfmt amb s) = Some b ->
  click be b w = exec be (handleLogin (useReal s)) w.
Proof.
  intros Hs Hl dfmt tfmt amb b Hb. unfold App in Hb.
  destruct (user s); [discriminate|]. cbn in Hb. injection Hb as <-.
  unfold click. cbn [disabled onClick]. rewrite Hl. unfold exec.
  destruct (useReal s).
  - erewrite run_detach by apply run_handleLogin_real.
    now rewrite run_handleLogin_real.
  - reflexivity.
Qed.

(** ** Stub mode *)

(** C8. In stub mode [login] always resolves, never rejects, and the
    [User] it yields has the fixed synthetic email demo@example.com;
    the backend is not consulted. *)
Theorem stub_login_resolves {browser : Browser} :
  forall (be : Backend) (w : World),
    exists u : User,
      fst (run be (login false) w) = Resolved (Some u) /\
      email u = "demo@example.com" /\
      occurrences (isFetch AuthLogin) (since w (exec be (login false) w)) = 0.
Proof.
  intros be w. exists demoUser. unfold exec. rewrite run_login_stub.
  cbn [fst snd]. rewrite since_steps. repeat split.
Qed.

(** ** The mode toggle *)

(** C10. Toggling the mode flag on the login screen changes the mode
    flag and nothing else: user, meeting collection, error message and
    loading flag keep their values, and so do the page URL and the
    navigation target. *)
Theorem toggle_changes_only_mode {browser : Browser} :
  forall dfmt tfmt amb (be : Backend) (w : World),
    user (session w) = None ->
    let w' := press toggleButton dfmt tfmt amb be w in
    useReal (session w') = negb (useReal (session w)) /\
    user (session w') = user (session w) /\
    data (session w') = data (session w) /\
    loading (session w') = loading (session w) /\
    error (session w') = error (session w) /\
    location w' = location w /\
    navigation w' = navigation w.
Proof.
  intros dfmt tfmt amb be w Hu w'. subst w'.
  unfold press, App. rewrite Hu. cbn.
  repeat split; auto.
Qed.

Lemma toggle_changes_only_mode_witness :
  user (session (freshWorld "/")) = None /\
  useReal (session (Sample.pressOn toggleButton Sample.down (freshWorld "/"))) = false /\
  error (session (Sample.pressOn toggleButton Sample.down (freshWorld "/"))) = None.
Proof.
  split; [reflexivity|].
  pose proof (toggle_changes_only_mode (Sample.fmt "date") (Sample.fmt "time")
                Sample.amb Sample.down (freshWorld "/") eq_refl) as H.
  cbv zeta in H. destruct H as [H1 [_ [_ [_ [H5 _]]]]].
  split; [exact H1 | exact H5].
Defined.

(** ** Logout *)

Lemma press_logout {browser : Browser} dfmt tfmt amb be w u :
  user (session w) = Some u ->
  press logoutButton dfmt tfmt amb be w = steps be [SetUser None] w.
Proof. intros Hu. unfold press, App. now rewrite Hu. Qed.

(** C1, as the code has it.  Logout from the dashboard clears the
    [User], so the next render is the login screen and shows no meeting
    card; the meeting collection in the session state is not touched and
    keeps the sequences it held. *)
Theorem logout_clears_user_only {browser : Browser} :
  forall dfmt tfmt amb (be : Backend) (w : World) (u : User),
    user (session w) = Some u ->
    let w' := press logoutButton dfmt tfmt amb be w in
    user (session w') = None /\
    isLoginScreen (App dfmt tfmt amb (session w')) = true /\
    shownCards (App dfmt tfmt amb (session w')) = [] /\
    data (session w') = data (session w) /\
    occurrences isStateChange (since w w') = 1.
Proof.
  intros dfmt tfmt amb be w u Hu w'. subst w'.
  rewrite (press_logout dfmt tfmt amb be w u Hu).
  rewrite since_steps. unfold App. rewrite session_steps. cbn.
  repeat split.
Qed.

Lemma logout_clears_user_only_witness :
  user (session Sample.loggedIn) = Some Sample.alice /\
  user (session (Sample.pressOn logoutButton Sample.healthy Sample.loggedIn)) = None /\
  data (session (Sample.pressOn logoutButton Sample.healthy Sample.loggedIn))
  = data (session Sample.loggedIn).
Proof.
  split; [reflexivity|].
  pose proof (logout_clears_user_only (Sample.fmt "date") (Sample.fmt "time")
                Sample.amb Sample.healthy Sample.loggedIn Sample.alice eq_refl) as H.
  cbv zeta in H. destruct H as [H1 [_ [_ [H4 _]]]].
  split; [exact H1 | exact H4].
Defined.

(** The collection that logout leaves behind is what the dashboard shows
    when a later sign-in stores a user and then fails to fetch. *)
Remark stale_collection_after_relogin :
  shownCards
    (Sample.view
       (session
          (Sample.pressOn signInButton Sample.meetings500
             (Sample.pressOn logoutButton Sample.healthy Sample.loggedIn))))
  = map (MeetingCard (Sample.fmt "date") (Sample.fmt "time") Sample.amb)
        [Sample.standup; Sample.retro].
Proof. vm_compute. reflexivity. Qed.

(** C1, as the specification words it, fails: after a login that loaded
    one upcoming and one past meeting, logout leaves both sequences in
    the session state. *)
Lemma logout_keeps_meetings :
  user (session Sample.loggedIn) = Some Sample.alice /\
  user (session (Sample.pressOn logoutButton Sample.healthy Sample.loggedIn)) = None /\
  upcoming (data (session (Sample.pressOn logoutButton Sample.healthy Sample.loggedIn)))
  = [Sample.standup] /\
  past (data (session (Sample.pressOn logoutButton Sample.healthy Sample.loggedIn)))
  = [Sample.retro] /\
  ~ (upcoming (data (session (Sample.pressOn logoutButton Sample.healthy Sample.loggedIn))) = [] /\
     past (data (session (Sample.pressOn logoutButton Sample.healthy Sample.loggedIn))) = []).
Proof.
  repeat split; try reflexivity.
  intros [H _]. vm_compute in H. discriminate H.
Qed.

(** ** Login: what the backend answered *)

Lemma loginAnswer_user {browser : Browser} (be : Backend) (res : Response AuthLogin) (d : LoginData) u :
  be AuthLogin = Some res -> body res = Some d -> data_user d = Some u ->
  loginAnswer be = GaveUser u.
Proof. intros H1 H2 H3. unfold loginAnswer. now rewrite H1, H2, H3. Qed.

Lemma loginAnswer_redirect {browser : Browser} (be : Backend) (res : Response AuthLogin)
    (d : LoginData) target :
  be AuthLogin = Some res -> body res = Some d -> data_user d = None ->
  data_authUrl d = Some target -> target <> "" -> parsesAsUrl target = true ->
  loginAnswer be = GaveRedirect target.
Proof.
  intros H1 H2 H3 H4 H5 H6. unfold loginAnswer. rewrite H1, H2, H3, H4.
  destruct target; [contradiction | now rewrite H6].
Qed.

Lemma login_outcome_any_world {browser : Browser} be mode w :
  fst (run be (login mode) w) =
  if mode then loginOutcome be else Resolved (Some demoUser).
Proof.
  destruct mode; [now rewrite run_login_real | now rewrite run_login_stub].
Qed.

Lemma exec_handleLogin {browser : Browser} be mode w :
  exec be (handleLogin mode) w =
  steps be (if mode then realScript be else stubScript) w.
Proof.
  unfold exec. destruct mode;
    [now rewrite run_handleLogin_real | now rewrite run_handleLogin_stub].
Qed.

Lemma press_signIn {browser : Browser} dfmt tfmt amb be w :
  user (session w) = None -> loading (session w) = false ->
  press signInButton dfmt tfmt amb be w
  = exec be (handleLogin (useReal (session w))) w.
Proof.
  intros Hu Hl. unfold press.
  destruct (signInButton (App dfmt tfmt amb (session w))) as [b|] eqn:Hb.
  - eapply click_signIn; eauto.
  - unfold App in Hb. rewrite Hu in Hb. discriminate.
Qed.

(** ** Failure of the meetings request *)

(** Whatever makes [fetchMeetings] fail after [login] produced a user,
    the handler has already stored the user: the error text is stored
    too, the collection is untouched, and the view is the dashboard, on
    which no error is displayed. *)
Lemma fetch_failure_leaves_user {browser : Browser} dfmt tfmt amb be w u e :
  loginAnswer be = GaveUser u -> meetingsAnswer be = GaveFailure e ->
  let w' := exec be (handleLogin true) w in
  user (session w') = Some u /\
  error (session w') = Some connectionFailed /\
  data (session w') = data (session w) /\
  loading (session w') = false /\
  isLoginScreen (App dfmt tfmt amb (session w')) = false /\
  shownError (App dfmt tfmt amb (session w')) = None.
Proof.
  intros Hl Hm w'. subst w'. rewrite exec_handleLogin, session_steps.
  scripts. unfold App. rewrite Hl, Hm. cbn.
  repeat split.
Qed.

(** C2, evaluated on the scenario of the specification: the backend
    has a session for the user and answers HTTP 500 on [/api/meetings].
    Signing in from a freshly loaded page stores the generic message and
    leaves both sequences empty, but the user stays set: the view is the
    dashboard, not the login screen, and the dashboard does not display
    the stored message. *)
Theorem meetings_500_ends_on_dashboard :
  user (session (Sample.pressOn signInButton Sample.meetings500 (freshWorld "/")))
  = Some Sample.alice /\
  error (session (Sample.pressOn signInButton Sample.meetings500 (freshWorld "/")))
  = Some connectionFailed /\
  data (session (Sample.pressOn signInButton Sample.meetings500 (freshWorld "/")))
  = {| upcoming := []; past := [] |} /\
  loading (session (Sample.pressOn signInButton Sample.meetings500 (freshWorld "/")))
  = false /\
  isLoginScreen
    (Sample.view (session (Sample.pressOn signInButton Sample.meetings500 (freshWorld "/"))))
  = false /\
  shownError
    (Sample.view (session (Sample.pressOn signInButton Sample.meetings500 (freshWorld "/"))))
  = None /\
  phase (session (Sample.pressOn signInButton Sample.meetings500 (freshWorld "/")))
  = Phase.LoggedIn.
Proof. vm_compute. repeat split. Qed.

(** ** Ordering of the two services *)

(** C3. In one run of [handleLogin], [fetchMeetings] is entered only
    when [login] has resolved to a user, exactly once in that case, in a
    session state that already holds this user while [loading] is still
    set; [login] is entered before it and no step of [login] comes after
    it.  Every step after the first is taken in [Authenticating], and
    after a real-mode login that yielded a user the run ends in
    [LoggedIn] having issued exactly one request for the meetings. *)
Theorem fetchMeetings_once_after_login {browser : Browser} :
  forall (be : Backend) (mode : bool) (w : World),
    let w' := exec be (handleLogin mode) w in
    let tr := since w w' in
    statesAt (isEnter FnFetchMeetings) tr =
      match fst (run be (login mode) w) with
      | Resolved (Some u) =>
          [set_user (Some u) (set_error None (set_loading true (session w)))]
      | _ => []
      end /\
    occurrences (isEnter FnLogin) (before (isEnter FnFetchMeetings) tr) = 1 /\
    occurrences isLoginStep (after (isEnter FnFetchMeetings) tr) = 0 /\
    Forall (fun en => phase (snd en) = Phase.Authenticating) (tl tr) /\
    (forall (res : Response AuthLogin) (d : LoginData) (u : User),
        mode = true ->
        be AuthLogin = Some res -> body res = Some d -> data_user d = Some u ->
        occurrences (isEnter FnFetchMeetings) tr = 1 /\
        occurrences (isFetch ApiMeetings) tr = 1 /\
        user (session w') = Some u /\
        phase (session w') = Phase.LoggedIn).
Proof.
  intros be mode w w' tr. subst tr w'.
  rewrite exec_handleLogin, since_steps, session_steps, login_outcome_any_world.
  destruct mode.
  - scripts. unfold loginOutcome.
    split; [|split; [|split; [|split]]].
    5:{ intros res d u _ H1 H2 H3. rewrite (loginAnswer_user be res d u H1 H2 H3).
        destruct (meetingsAnswer be); cbn; repeat split. }
    all: by_answer be; cbn; repeat constructor.
  - cbn. repeat split; try discriminate. repeat constructor.
Qed.

Lemma fetchMeetings_once_after_login_witness :
  Sample.healthy AuthLogin
  = Some {| status := 200;
            body := Some ({| data_user := Some Sample.alice; data_authUrl := None |}
                          : Payload AuthLogin) |} /\
  occurrences (isEnter FnFetchMeetings)
    (since (freshWorld "/") (exec Sample.healthy (handleLogin true) (freshWorld "/"))) = 1 /\
  phase (session (exec Sample.healthy (handleLogin true) (freshWorld "/"))) = Phase.LoggedIn.
Proof.
  split; [reflexivity|].
  pose proof (fetchMeetings_once_after_login Sample.healthy true (freshWorld "/")) as H.
  cbv zeta in H. destruct H as [_ [_ [_ [_ H]]]].
  specialize (H _ _ Sample.alice eq_refl eq_refl eq_refl eq_refl).
  destruct H as [H1 [_ [_ H4]]]. split; [exact H1 | exact H4].
Defined.

(** ** The redirect marker *)

Lemma exec_mountEffect_marker {browser : Browser} be w :
  hasMarker (location w) = true ->
  exec be (mountEffect true) w = steps be (redirectScript be) w.
Proof. intros H. unfold exec. now rewrite run_mountEffect_marker. Qed.

Lemma location_redirectScript {browser : Browser} be w : location (steps be (redirectScript be) w) = "/".
Proof.
  scripts. by_answer be; reflexivity.
Qed.

Lemma mount_marker {browser : Browser} be loc :
  hasMarker loc = true -> mount be loc = steps be (redirectScript be) (freshWorld loc).
Proof. intros H. exact (exec_mountEffect_marker be (freshWorld loc) H). Qed.

(** C4. When the page loads in real mode on a URL whose query has
    [status=success], the mount effect enters [login] exactly once and
    replaces the URL by ["/"] as its very next step after issuing the
    login request, so the marker is gone whatever the backend answers
    later, failure included.  Loading the page again at the URL that is
    left does not enter [login] and leaves the initial session. *)
Theorem redirect_marker_consumed_once {browser : Browser} :
  forall (be : Backend) (loc : string),
    params_get (URLSearchParams (search_of loc)) "status" = Some "success" ->
    useReal initialSession = true /\
    occurrences (isEnter FnLogin) (trace (mount be loc)) = 1 /\
    option_map fst (hd_error (after (isFetch AuthLogin) (trace (mount be loc))))
    = Some (ReplaceState "/") /\
    location (mount be loc) = "/" /\
    params_get (URLSearchParams (search_of (location (mount be loc)))) "status" = None /\
    (forall be' : Backend,
        occurrences (isEnter FnLogin) (trace (mount be' (location (mount be loc)))) = 0 /\
        session (mount be' (location (mount be loc))) = initialSession /\
        location (mount be' (location (mount be loc))) = location (mount be loc)).
Proof.
  intros be loc H.
  assert (Hm : hasMarker loc = true) by (unfold hasMarker; now rewrite H).
  split; [reflexivity|].
  rewrite (mount_marker be loc Hm), location_redirectScript.
  rewrite trace_steps. cbn [trace freshWorld app session].
  split; [|split; [|split; [|split]]]; try reflexivity.
  - scripts. by_answer be; reflexivity.
  - intros be'. repeat split.
Qed.

Lemma redirect_marker_consumed_once_witness :
  params_get (URLSearchParams (search_of "/?status=success")) "status" = Some "success" /\
  occurrences (isEnter FnLogin) (trace (mount Sample.down "/?status=success")) = 1 /\
  location (mount Sample.down "/?status=success") = "/".
Proof.
  split; [reflexivity|].
  destruct (redirect_marker_consumed_once Sample.down "/?status=success" eq_refl)
    as [_ [H1 [_ [H3 _]]]].
  split; [exact H1 | exact H3].
Defined.

(** ** The redirect signal *)

(** [login] yields the redirect signal exactly when the answer carries
    no user and a non-empty [authUrl] that the browser parses as a URL:
    only then does the assignment to [window.location.href] succeed. *)
Lemma login_redirects_iff {browser : Browser} (be : Backend) (w : World) :
  fst (run be (login true) w) = Resolved None <->
  exists (res : Response AuthLogin) (d : LoginData) (target : string),
    be AuthLogin = Some res /\ body res = Some d /\
    data_user d = None /\ data_authUrl d = Some target /\
    target <> "" /\ parsesAsUrl target = true.
Proof.
  rewrite login_outcome_any_world. unfold loginOutcome, loginAnswer. split.
  - destruct (be AuthLogin) as [res|]; [|discriminate].
    destruct (body res) as [d|] eqn:Hb; [|discriminate].
    destruct (data_user d) eqn:Hu; [discriminate|].
    destruct (data_authUrl d) as [[|c a]|] eqn:Ha; try discriminate.
    destruct (parsesAsUrl (String c a)) eqn:Hp; [|discriminate].
    intros _. exists res, d, (String c a). repeat split; auto. discriminate.
  - intros [res [d [target [H1 [H2 [H3 [H4 [H5 H6]]]]]]]].
    rewrite H1. cbn in H2 |- *. rewrite H2, H3, H4.
    destruct target; [contradiction|]. now rewrite H6.
Qed.

(** C5. When real-mode [login] yields a redirect target, that is, the
    answer carries no user and an [authUrl] that the browser takes as a
    URL, [login] resolves to no user and [handleLogin] sets the
    navigation target to that URL, never sets the user, never enters
    [fetchMeetings] nor requests the meetings, stores no error, and the
    view stays the login screen, with no error box and no meeting card. *)
Theorem redirect_sets_navigation_only {browser : Browser} :
  forall dfmt tfmt amb (be : Backend) (w : World)
         (res : Response AuthLogin) (d : LoginData) (target : string),
    be AuthLogin = Some res -> body res = Some d ->
    data_user d = None -> data_authUrl d = Some target -> target <> "" ->
    parsesAsUrl target = true ->
    user (session w) = None ->
    let w' := exec be (handleLogin true) w in
    fst (run be (login true) w) = Resolved None /\
    navigation w' = Some target /\
    user (session w') = None /\
    occurrences isSetUser (since w w') = 0 /\
    occurrences (isEnter FnFetchMeetings) (since w w') = 0 /\
    occurrences (isFetch ApiMeetings) (since w w') = 0 /\
    error (session w') = None /\
    isLoginScreen (App dfmt tfmt amb (session w')) = true /\
    shownError (App dfmt tfmt amb (session w')) = None /\
    shownCards (App dfmt tfmt amb (session w')) = [].
Proof.
  intros dfmt tfmt amb be w res d target H1 H2 H3 H4 H5 H6 Hu w'. subst w'.
  pose proof (loginAnswer_redirect be res d target H1 H2 H3 H4 H5 H6) as Ha.
  rewrite login_outcome_any_world, exec_handleLogin, since_steps.
  unfold App. rewrite session_steps.
  scripts. unfold loginOutcome. rewrite Ha.
  cbn. rewrite Hu. repeat split.
Qed.

Lemma redirect_sets_navigation_only_witness :
  Sample.authUrl <> "" /\
  parsesAsUrl Sample.authUrl = true /\
  user (session (freshWorld "/")) = None /\
  navigation (exec Sample.redirecting (handleLogin true) (freshWorld "/"))
  = Some Sample.authUrl /\
  user (session (exec Sample.redirecting (handleLogin true) (freshWorld "/"))) = None.
Proof.
  assert (Hne : Sample.authUrl <> "") by discriminate.
  split; [exact Hne|]. split; [reflexivity|]. split; [reflexivity|].
  pose proof (redirect_sets_navigation_only (Sample.fmt "date") (Sample.fmt "time")
                Sample.amb Sample.redirecting (freshWorld "/")
                {| status := 200;
                   body := Some ({| data_user := None;
                                    data_authUrl := Some Sample.authUrl |}
                                 : Payload AuthLogin) |}
                {| data_user := None; data_authUrl := Some Sample.authUrl |}
                Sample.authUrl eq_refl eq_refl eq_refl eq_refl Hne eq_refl eq_refl) as H.
  cbv zeta in H. destruct H as [_ [H2 [H3 _]]].
  split; [exact H2 | exact H3].
Defined.

(** C6, as the specification words it, fails: after the redirect
    signal the handler takes one more step, which clears [loading]; the
    run ends in the cells of [LoggedOut], not in [Authenticating]. *)
Lemma redirect_does_not_stay_authenticating :
  navigation (Sample.pressOn signInButton Sample.redirecting (freshWorld "/"))
  = Some Sample.authUrl /\
  ops (after isRedirect
         (trace (Sample.pressOn signInButton Sample.redirecting (freshWorld "/"))))
  = [SetLoading false] /\
  loading (session (Sample.pressOn signInButton Sample.redirecting (freshWorld "/")))
  = false /\
  phase (session (Sample.pressOn signInButton Sample.redirecting (freshWorld "/")))
  = Phase.LoggedOut /\
  phase (session (Sample.pressOn signInButton Sample.redirecting (freshWorld "/")))
  <> Phase.Authenticating.
Proof. vm_compute. repeat split. discriminate. Qed.

(** C6, as the code has it.  When real-mode [login] resolves to the
    redirect signal (no user, and an [authUrl] the browser takes as a
    URL), the redirect is issued in [Authenticating]; exactly one local
    step follows it, the clearing of [loading], and the run ends with the
    navigation target set and the cells of [LoggedOut]: no user, no
    error, not loading, collection unchanged. *)
Theorem redirect_then_loading_cleared {browser : Browser} :
  forall (be : Backend) (w : World)
         (res : Response AuthLogin) (d : LoginData) (target : string),
    be AuthLogin = Some res -> body res = Some d ->
    data_user d = None -> data_authUrl d = Some target -> target <> "" ->
    parsesAsUrl target = true ->
    user (session w) = None ->
    let w' := exec be (handleLogin true) w in
    navigation w' = Some target /\
    Forall (fun s => phase s = Phase.Authenticating)
           (statesAt isRedirect (since w w')) /\
    ops (after isRedirect (since w w')) = [SetLoading false] /\
    loading (session w') = false /\
    user (session w') = None /\
    error (session w') = None /\
    data (session w') = data (session w) /\
    phase (session w') = Phase.LoggedOut.
Proof.
  intros be w res d target H1 H2 H3 H4 H5 H6 Hu w'. subst w'.
  pose proof (loginAnswer_redirect be res d target H1 H2 H3 H4 H5 H6) as Ha.
  rewrite exec_handleLogin, since_steps, session_steps.
  scripts. rewrite Ha.
  cbn. unfold phase. cbn. rewrite Hu. repeat split. repeat constructor.
Qed.

Lemma redirect_then_loading_cleared_witness :
  Sample.authUrl <> "" /\
  parsesAsUrl Sample.authUrl = true /\
  user (session (freshWorld "/")) = None /\
  loading (session (exec Sample.redirecting (handleLogin true) (freshWorld "/"))) = false /\
  phase (session (exec Sample.redirecting (handleLogin true) (freshWorld "/")))
  = Phase.LoggedOut.
Proof.
  assert (Hne : Sample.authUrl <> "") by discriminate.
  split; [exact Hne|]. split; [reflexivity|]. split; [reflexivity|].
  pose proof (redirect_then_loading_cleared Sample.redirecting (freshWorld "/")
                {| status := 200;
                   body := Some ({| data_user := None;
                                    data_authUrl := Some Sample.authUrl |}
                                 : Payload AuthLogin) |}
                {| data_user := None; data_authUrl := Some Sample.authUrl |}
                Sample.authUrl eq_refl eq_refl eq_refl eq_refl Hne eq_refl eq_refl) as H.
  cbv zeta in H. destruct H as [_ [_ [_ [H4 [_ [_ [_ H8]]]]]]].
  split; [exact H4 | exact H8].
Defined.

(** ** Login failures *)

Lemma login_rejects_iff {browser : Browser} (be : Backend) :
  (exists e, loginOutcome be = Rejected e) <->
  (be AuthLogin = None \/
   exists res : Response AuthLogin,
     be AuthLogin = Some res /\
     (body res = None \/
      exists d : LoginData,
        body res = Some d /\ data_user d = None /\
        (truthy (data_authUrl d) = false \/
         exists target, data_authUrl d = Some target /\
                        parsesAsUrl target = false))).
Proof.
  unfold loginOutcome, loginAnswer. split.
  - intros [e He]. destruct (be AuthLogin) as [res|]; [right | now left].
    exists res. split; [reflexivity|].
    destruct (body res) as [d|]; [right | now left].
    exists d. split; [reflexivity|].
    destruct (data_user d); [discriminate|]. split; [reflexivity|].
    destruct (data_authUrl d) as [[|c a]|]; auto.
    destruct (parsesAsUrl (String c a)) eqn:Hp; [discriminate|].
    right. exists (String c a). auto.
  - intros [H | [res [H [Hb | [d [Hb [Hu Ht]]]]]]]; rewrite H.
    + eexists; reflexivity.
    + rewrite Hb. eexists; reflexivity.
    + rewrite Hb, Hu. destruct Ht as [Ht | [target [Ha Hp]]].
      * destruct (data_authUrl d) as [[|c a]|];
          try discriminate; eexists; reflexivity.
      * rewrite Ha. destruct target as [|c a]; [eexists; reflexivity|].
        rewrite Hp. eexists; reflexivity.
Qed.

(** C7. Real-mode [login] rejects exactly when the transport fails or
    the response carries neither a user nor a redirect target: its body
    is not JSON, or has no user and no [authUrl] that is non-empty and
    taken as a URL by the browser.  Every such rejection is caught in
    [handleLogin], which itself resolves: the one generic message is
    stored and shown on the login screen, [login] was entered once and
    its request issued once, no navigation was started, and nothing else
    changed. *)
Theorem login_failure_collapsed {browser : Browser} :
  forall dfmt tfmt amb (be : Backend) (w : World),
    ((exists e, fst (run be (login true) w) = Rejected e) <->
     (be AuthLogin = None \/
      exists res : Response AuthLogin,
        be AuthLogin = Some res /\
        (body res = None \/
         exists d : LoginData,
           body res = Some d /\ data_user d = None /\
           (truthy (data_authUrl d) = false \/
            exists target, data_authUrl d = Some target /\
                           parsesAsUrl target = false)))) /\
    (forall e,
        fst (run be (login true) w) = Rejected e ->
        user (session w) = None ->
        let w' := exec be (handleLogin true) w in
        fst (run be (handleLogin true) w) = Resolved tt /\
        error (session w') = Some connectionFailed /\
        loading (session w') = false /\
        user (session w') = None /\
        data (session w') = data (session w) /\
        navigation w' = navigation w /\
        occurrences (isEnter FnLogin) (since w w') = 1 /\
        occurrences (isFetch AuthLogin) (since w w') = 1 /\
        occurrences (isEnter FnFetchMeetings) (since w w') = 0 /\
        isLoginScreen (App dfmt tfmt amb (session w')) = true /\
        shownError (App dfmt tfmt amb (session w')) = Some connectionFailed).
Proof.
  intros dfmt tfmt amb be w. rewrite login_outcome_any_world. split.
  - apply login_rejects_iff.
  - intros e He Hu w'. subst w'.
    rewrite run_handleLogin_real, exec_handleLogin, since_steps.
    unfold App. rewrite session_steps.
    revert He. scripts. unfold loginOutcome.
    destruct (loginAnswer be) as [u|target|target|e']; try discriminate;
      intros _; cbn; rewrite Hu; repeat split.
Qed.

Lemma login_failure_collapsed_witness :
  fst (run Sample.down (login true) (freshWorld "/"))
  = Rejected (TypeError "Failed to fetch") /\
  user (session (freshWorld "/")) = None /\
  error (session (exec Sample.down (handleLogin true) (freshWorld "/")))
  = Some connectionFailed /\
  occurrences (isFetch AuthLogin)
    (since (freshWorld "/") (exec Sample.down (handleLogin true) (freshWorld "/"))) = 1 /\
  parsesAsUrl Fixture.brokenAuthUrl = false /\
  fst (run Fixture.unparseableAuthUrl (login true) (freshWorld "/"))
  = Rejected (DOMException "SyntaxError") /\
  error (session (exec Fixture.unparseableAuthUrl (handleLogin true) (freshWorld "/")))
  = Some connectionFailed /\
  navigation (exec Fixture.unparseableAuthUrl (handleLogin true) (freshWorld "/"))
  = None.
Proof.
  split; [reflexivity|]. split; [reflexivity|].
  destruct (login_failure_collapsed (Sample.fmt "date") (Sample.fmt "time")
              Sample.amb Sample.down (freshWorld "/")) as [_ H].
  specialize (H (TypeError "Failed to fetch") eq_refl eq_refl). cbv zeta in H.
  destruct H as [_ [H2 [_ [_ [_ [_ [_ [H8 _]]]]]]]].
  split; [exact H2|]. split; [exact H8|].
  split; [reflexivity|]. split; [reflexivity|].
  destruct (login_failure_collapsed (Sample.fmt "date") (Sample.fmt "time")
              Sample.amb Fixture.unparseableAuthUrl (freshWorld "/")) as [_ G].
  specialize (G (DOMException "SyntaxError") eq_refl eq_refl). cbv zeta in G.
  destruct G as [_ [G2 [_ [_ [_ [G6 _]]]]]].
  split; [exact G2 | exact G6].
Defined.

(** ** The meeting card *)

(** C9. The card rendered for a meeting is determined by the meeting,
    the locale and the time zone: two renders that agree on these agree
    on the card, whatever the clock reads; and the cards of the dashboard
    are determined by the meeting collection, the locale and the time
    zone, whatever the other state cells hold. *)
Theorem MeetingCard_pure :
  forall dfmt tfmt (a1 a2 : Ambient) (m1 m2 : Meeting),
    m1 = m2 -> locale a1 = locale a2 -> timeZone a1 = timeZone a2 ->
    MeetingCard dfmt tfmt a1 m1 = MeetingCard dfmt tfmt a2 m2 /\
    (forall (s1 s2 : Session) (u1 u2 : User),
        user s1 = Some u1 -> user s2 = Some u2 -> data s1 = data s2 ->
        shownCards (App dfmt tfmt a1 s1) = shownCards (App dfmt tfmt a2 s2)).
Proof.
  intros dfmt tfmt a1 a2 m1 m2 -> Hl Ht.
  assert (Hc : forall m, MeetingCard dfmt tfmt a1 m = MeetingCard dfmt tfmt a2 m).
  { intros m. unfold MeetingCard. now rewrite Hl, Ht. }
  split; [apply Hc|].
  intros s1 s2 u1 u2 H1 H2 Hd. unfold App. rewrite H1, H2, Hd. cbn.
  f_equal; apply map_ext; intros m; apply Hc.
Qed.

Lemma MeetingCard_pure_witness :
  locale Sample.amb = locale Sample.ambLater /\
  timeZone Sample.amb = timeZone Sample.ambLater /\
  now Sample.amb <> now Sample.ambLater /\
  MeetingCard (Sample.fmt "date") (Sample.fmt "time") Sample.amb Sample.standup
  = MeetingCard (Sample.fmt "date") (Sample.fmt "time") Sample.ambLater Sample.standup /\
  shownCards (App (Sample.fmt "date") (Sample.fmt "time") Sample.amb
                (session Sample.loggedIn))
  = shownCards (App (Sample.fmt "date") (Sample.fmt "time") Sample.ambLater
                  (set_user (Some demoUser) (session Sample.loggedIn))).
Proof.
  split; [reflexivity|]. split; [reflexivity|]. split; [discriminate|].
  destruct (MeetingCard_pure (Sample.fmt "date") (Sample.fmt "time")
              Sample.amb Sample.ambLater Sample.standup Sample.standup
              eq_refl eq_refl eq_refl) as [H1 H2].
  split; [exact H1|].
  exact (H2 (session Sample.loggedIn)
            (set_user (Some demoUser) (session Sample.loggedIn))
            Sample.alice demoUser eq_refl eq_refl eq_refl).
Defined.

(* ================================================================== *)
(** * Further properties of the services, the handlers and the view *)

Lemma exec_login_real {browser : Browser} be w : exec be (login true) w = steps be (loginScript be) w.
Proof. unfold exec. now rewrite run_login_real. Qed.

Lemma fetchMeetings_outcome_any_world {browser : Browser} be mode w :
  fst (run be (fetchMeetings mode) w) =
  if mode then match meetingsAnswer be with
               | GaveMeetings d => Resolved d
               | GaveFailure e => Rejected e
               end
  else Resolved {| upcoming := []; past := [] |}.
Proof. destruct mode; [now rewrite run_fetchMeetings_real | reflexivity]. Qed.

Lemma ok_iff {e} (res : Response e) :
  ok res = true <-> (200 <= status res /\ status res <= 299)%nat.
Proof.
  unfold ok. rewrite andb_true_iff, !Nat.leb_le. reflexivity.
Qed.

(** ** The services *)

(** X1. In stub mode [fetchMeetings] resolves, for every backend, to
    the collection with two empty sequences; it issues no request and
    changes no state cell. *)
Theorem stub_fetchMeetings_empty {browser : Browser} :
  forall (be : Backend) (w : World),
    fst (run be (fetchMeetings false) w)
    = Resolved {| upcoming := []; past := [] |} /\
    occurrences isAnyFetch (since w (exec be (fetchMeetings false) w)) = 0 /\
    session (exec be (fetchMeetings false) w) = session w.
Proof.
  intros be w. split; [reflexivity|].
  change (exec be (fetchMeetings false) w)
    with (steps be [Enter FnFetchMeetings false] w).
  rewrite since_steps, session_steps. split; reflexivity.
Qed.

(** X2. In real mode [fetchMeetings] resolves to a collection exactly
    when the backend answered with a status from 200 to 299 and a JSON
    body, and then to that body; in every case it issues exactly one
    request for the meetings. *)
Theorem fetchMeetings_resolves_iff {browser : Browser} :
  forall (be : Backend) (w : World) (d : MeetingData),
    (fst (run be (fetchMeetings true) w) = Resolved d <->
     exists res : Response ApiMeetings,
       be ApiMeetings = Some res /\
       (200 <= status res)%nat /\ (status res <= 299)%nat /\
       body res = Some d) /\
    occurrences (isFetch ApiMeetings) (since w (exec be (fetchMeetings true) w)) = 1.
Proof.
  intros be w d. split.
  - rewrite fetchMeetings_outcome_any_world. unfold meetingsAnswer. split.
    + destruct (be ApiMeetings) as [res|]; [|discriminate].
      destruct (ok res) eqn:Hok; [|discriminate].
      destruct (body res) as [d'|] eqn:Hb; [|discriminate].
      intros [= ->]. apply ok_iff in Hok. exists res. tauto.
    + intros [res [H [H1 [H2 Hb]]]]. rewrite H.
      assert (Hok : ok res = true) by (apply ok_iff; auto).
      rewrite Hok. cbn in Hb |- *. now rewrite Hb.
  - unfold exec. rewrite run_fetchMeetings_real. cbn [snd].
    now rewrite since_steps.
Qed.

Lemma fetchMeetings_resolves_iff_witness :
  fst (run Sample.healthy (fetchMeetings true) (freshWorld "/"))
  = Resolved Sample.meetings /\
  (exists res : Response ApiMeetings,
      Sample.healthy ApiMeetings = Some res /\
      (200 <= status res)%nat /\ (status res <= 299)%nat /\
      body res = Some Sample.meetings).
Proof.
  split; [reflexivity|].
  apply (proj1 (proj1 (fetchMeetings_resolves_iff Sample.healthy (freshWorld "/")
                         Sample.meetings))).
  reflexivity.
Defined.

(** X3. Real-mode [login] never looks at the HTTP status: two answers
    with the same body settle [login] the same way whatever their status
    codes, so a body with a user logs in even under an error status. *)
Theorem login_ignores_status {browser : Browser} :
  forall (be1 be2 : Backend) (st1 st2 : nat) (b : option (Payload AuthLogin))
         (w1 w2 : World),
    be1 AuthLogin = Some (Build_Response AuthLogin st1 b) ->
    be2 AuthLogin = Some (Build_Response AuthLogin st2 b) ->
    fst (run be1 (login true) w1) = fst (run be2 (login true) w2).
Proof.
  intros be1 be2 st1 st2 b w1 w2 H1 H2.
  rewrite !login_outcome_any_world. unfold loginOutcome, loginAnswer.
  now rewrite H1, H2.
Qed.

Lemma login_ignores_status_witness :
  fst (run Sample.healthy (login true) (freshWorld "/"))
  = fst (run Fixture.loginStatus500 (login true) (freshWorld "/")) /\
  fst (run Fixture.loginStatus500 (login true) (freshWorld "/"))
  = Resolved (Some Sample.alice).
Proof.
  split; [|reflexivity].
  exact (login_ignores_status Sample.healthy Fixture.loginStatus500 200 500
           (Some ({| data_user := Some Sample.alice; data_authUrl := None |}
                  : Payload AuthLogin))
           (freshWorld "/") (freshWorld "/") eq_refl eq_refl).
Defined.

(** X4. A user in the login answer takes precedence over a redirect
    target: [login] resolves to that user and assigns no navigation
    target, whatever [authUrl] holds. *)
Theorem login_user_wins {browser : Browser} :
  forall (be : Backend) (w : World) (res : Response AuthLogin)
         (d : LoginData) (u : User),
    be AuthLogin = Some res -> body res = Some d -> data_user d = Some u ->
    fst (run be (login true) w) = Resolved (Some u) /\
    navigation (exec be (login true) w) = navigation w /\
    occurrences isRedirect (since w (exec be (login true) w)) = 0.
Proof.
  intros be w res d u H1 H2 H3.
  pose proof (loginAnswer_user be res d u H1 H2 H3) as Ha.
  rewrite login_outcome_any_world, exec_login_real, since_steps.
  unfold loginOutcome, loginScript. rewrite Ha. repeat split.
Qed.

Lemma login_user_wins_witness :
  fst (run Fixture.userAndAuthUrl (login true) (freshWorld "/"))
  = Resolved (Some Sample.alice) /\
  navigation (exec Fixture.userAndAuthUrl (login true) (freshWorld "/")) = None.
Proof.
  destruct (login_user_wins Fixture.userAndAuthUrl (freshWorld "/")
              {| status := 200;
                 body := Some ({| data_user := Some Sample.alice;
                                  data_authUrl := Some Sample.authUrl |}
                               : Payload AuthLogin) |}
              {| data_user := Some Sample.alice;
                 data_authUrl := Some Sample.authUrl |}
              Sample.alice eq_refl eq_refl eq_refl) as [H1 [H2 _]].
  split; [exact H1 | exact H2].
Defined.

(** X5. Real-mode [login] resolves to no user exactly when it has
    assigned a navigation target, which it does at most once; when it has
    not, the navigation target is the one it found. *)
Theorem login_null_iff_navigates {browser : Browser} :
  forall (be : Backend) (w : World),
    (fst (run be (login true) w) = Resolved None <->
     occurrences isRedirect (since w (exec be (login true) w)) = 1) /\
    (occurrences isRedirect (since w (exec be (login true) w)) <= 1)%nat /\
    (occurrences isRedirect (since w (exec be (login true) w)) = 0 ->
     navigation (exec be (login true) w) = navigation w).
Proof.
  intros be w.
  rewrite login_outcome_any_world, exec_login_real, since_steps.
  unfold loginOutcome, loginScript.
  destruct (loginAnswer be); cbn; repeat split;
    try discriminate; auto.
Qed.

Lemma login_null_iff_navigates_witness :
  occurrences isRedirect
    (since (freshWorld "/") (exec Sample.confused (login true) (freshWorld "/"))) = 0 /\
  navigation (exec Sample.confused (login true) (freshWorld "/")) = None /\
  fst (run Sample.redirecting (login true) (freshWorld "/")) = Resolved None.
Proof.
  split; [reflexivity|]. split.
  - exact (proj2 (proj2 (login_null_iff_navigates Sample.confused (freshWorld "/")))
             eq_refl).
  - exact (proj2 (proj1 (login_null_iff_navigates Sample.redirecting (freshWorld "/")))
             eq_refl).
Defined.

(** ** The login handler *)

(** A network on which nothing hangs is the network of [run]. *)
Lemma run_stall_never {browser : Browser} {A} be hung (p : Prog A) w :
  (forall e, hung e = false) ->
  run be (stall hung p) w =
  (match fst (run be p w) with
   | Resolved a => Resolved (Some a)
   | Rejected e => Rejected e
   end, snd (run be p w)).
Proof.
  intros Hh. revert w. induction p as [a|e|o k IH]; intros w; try reflexivity.
  cbn [stall run]. 
  assert (Ho : hangsAt hung o = false) by (destruct o; cbn; auto).
  rewrite Ho. cbn. apply IH.
Qed.





(** X7. The error cell after [handleLogin] tells how this run went and
    nothing about earlier ones: it holds the generic message when
    [login] rejected, or when [login] gave a user and [fetchMeetings]
    rejected, and is empty otherwise, whatever it held before. *)
Theorem handleLogin_error_reflects_run {browser : Browser} :
  forall (be : Backend) (mode : bool) (w : World),
    error (session (exec be (handleLogin mode) w)) =
    match fst (run be (login mode) w) with
    | Rejected _ => Some connectionFailed
    | Resolved None => None
    | Resolved (Some _) =>
        match fst (run be (fetchMeetings mode) w) with
        | Rejected _ => Some connectionFailed
        | Resolved _ => None
        end
    end.
Proof.
  intros be mode w.
  rewrite exec_handleLogin, session_steps, login_outcome_any_world,
    fetchMeetings_outcome_any_world.
  destruct mode; [|reflexivity].
  scripts. unfold loginOutcome. by_answer be; reflexivity.
Qed.

(** X8. [handleLogin] stores what the services returned and touches
    nothing else: the user cell takes the user [login] resolved to and is
    otherwise left alone, and the collection takes what [fetchMeetings]
    resolved to, when it was reached and resolved, and is otherwise left
    alone. *)
Theorem handleLogin_stores_results {browser : Browser} :
  forall (be : Backend) (mode : bool) (w : World),
    user (session (exec be (handleLogin mode) w)) =
      match fst (run be (login mode) w) with
      | Resolved (Some u) => Some u
      | _ => user (session w)
      end /\
    data (session (exec be (handleLogin mode) w)) =
      match fst (run be (login mode) w), fst (run be (fetchMeetings mode) w) with
      | Resolved (Some _), Resolved d => d
      | _, _ => data (session w)
      end.
Proof.
  intros be mode w.
  rewrite exec_handleLogin, session_steps, login_outcome_any_world,
    fetchMeetings_outcome_any_world.
  destruct mode; [|split; reflexivity].
  scripts. unfold loginOutcome. by_answer be; split; reflexivity.
Qed.

(** X9. One run of [handleLogin] issues the login request once in real
    mode and at most one request for the meetings; in stub mode it issues
    no request at all. *)
Theorem handleLogin_request_budget {browser : Browser} :
  forall (be : Backend) (mode : bool) (w : World),
    occurrences (isFetch AuthLogin) (since w (exec be (handleLogin mode) w))
    = (if mode then 1 else 0) /\
    (occurrences (isFetch ApiMeetings) (since w (exec be (handleLogin mode) w)) <= 1)%nat /\
    (occurrences isAnyFetch (since w (exec be (handleLogin mode) w)) <= 2)%nat /\
    (mode = false ->
     occurrences isAnyFetch (since w (exec be (handleLogin mode) w)) = 0).
Proof.
  intros be mode w. rewrite exec_handleLogin, since_steps.
  destruct mode.
  - scripts. by_answer be; cbn; repeat split; auto; try discriminate.
  - cbn. repeat split; auto.
Qed.

Lemma handleLogin_request_budget_witness :
  occurrences isAnyFetch
    (since (freshWorld "/") (exec Sample.healthy (handleLogin false) (freshWorld "/"))) = 0.
Proof.
  exact (proj2 (proj2 (proj2 (handleLogin_request_budget Sample.healthy false
                                (freshWorld "/")))) eq_refl).
Defined.

(** X10. Both services run in the mode the handler was created with:
    every service entry of one run of [handleLogin] carries that mode. *)
Theorem handleLogin_single_mode {browser : Browser} :
  forall (be : Backend) (mode : bool) (w : World),
    Forall (fun o => enteredMode o = None \/ enteredMode o = Some mode)
           (ops (since w (exec be (handleLogin mode) w))).
Proof.
  intros be mode w. rewrite exec_handleLogin, since_steps.
  assert (Hstep : forall os,
             (forall o, In o os -> enteredMode o = None \/ enteredMode o = Some mode) ->
             Forall (fun o => enteredMode o = None \/ enteredMode o = Some mode) os)
    by (intros os H; now apply Forall_forall).
  apply Hstep. intros o Ho.
  destruct mode.
  - revert Ho. scripts. by_answer be; cbn;
      intros Ho; repeat (destruct Ho as [<-|Ho]; [cbn; auto|]); destruct Ho.
  - cbn in Ho. repeat (destruct Ho as [<-|Ho]; [cbn; auto|]). destruct Ho.
Qed.

(** ** Clicks *)

(** X11. While a sign-in is in flight the sign-in control is inert:
    with [loading] set, pressing it changes nothing, not even the trace. *)
Theorem signIn_inert_while_loading {browser : Browser} :
  forall dfmt tfmt amb (be : Backend) (w : World),
    loading (session w) = true ->
    press signInButton dfmt tfmt amb be w = w.
Proof.
  intros dfmt tfmt amb be w Hl. unfold press, App.
  destruct (user (session w)); cbn; [reflexivity|].
  unfold click. cbn. now rewrite Hl.
Qed.

Lemma signIn_inert_while_loading_witness :
  loading (session Fixture.busy) = true /\
  Sample.pressOn signInButton Sample.healthy Fixture.busy = Fixture.busy.
Proof.
  split; [reflexivity|].
  exact (signIn_inert_while_loading (Sample.fmt "date") (Sample.fmt "time")
           Sample.amb Sample.healthy Fixture.busy eq_refl).
Defined.

Lemma press_toggle {browser : Browser} dfmt tfmt amb be w :
  user (session w) = None ->
  press toggleButton dfmt tfmt amb be w
  = steps be [SetUseReal (negb (useReal (session w)))] w.
Proof. intros Hu. unfold press, App. now rewrite Hu. Qed.

(** X12. Toggling the mode twice on the login screen restores the
    session state exactly. *)
Theorem toggle_twice_restores {browser : Browser} :
  forall dfmt tfmt amb (be : Backend) (w : World),
    user (session w) = None ->
    session (press toggleButton dfmt tfmt amb be
               (press toggleButton dfmt tfmt amb be w))
    = session w.
Proof.
  intros dfmt tfmt amb be w Hu.
  rewrite (press_toggle dfmt tfmt amb be w Hu).
  rewrite press_toggle by (rewrite session_steps; exact Hu).
  rewrite !session_steps. cbn.
  destruct (session w) as [m u d l e]. cbn. unfold set_useReal. cbn.
  now rewrite negb_involutive.
Qed.

Lemma toggle_twice_restores_witness :
  user (session Fixture.afterFailure) = None /\
  session (Sample.pressOn toggleButton Sample.down
             (Sample.pressOn toggleButton Sample.down Fixture.afterFailure))
  = session Fixture.afterFailure.
Proof.
  split; [reflexivity|].
  exact (toggle_twice_restores (Sample.fmt "date") (Sample.fmt "time")
           Sample.amb Sample.down Fixture.afterFailure eq_refl).
Defined.

(** X13. The sign-in control uses the mode of the render it belongs
    to: after the page has been switched from real to stub mode, signing
    in issues no request, whatever the backend would answer, and ends
    with the demo user, an empty collection and no error, on a dashboard
    whose two sections show their placeholder lines. *)
Theorem signIn_after_toggle_is_offline {browser : Browser} :
  forall dfmt tfmt amb (be be' : Backend) (w : World),
    user (session w) = None -> loading (session w) = false ->
    useReal (session w) = true ->
    let w1 := press toggleButton dfmt tfmt amb be w in
    let w2 := press signInButton dfmt tfmt amb be' w1 in
    occurrences isAnyFetch (since w w2) = 0 /\
    useReal (session w2) = false /\
    user (session w2) = Some demoUser /\
    data (session w2) = {| upcoming := []; past := [] |} /\
    error (session w2) = None /\
    loading (session w2) = false /\
    upcomingSectionOf (App dfmt tfmt amb (session w2))
    = Some {| cards := []; placeholder := Some "No upcoming meetings." |} /\
    pastSectionOf (App dfmt tfmt amb (session w2))
    = Some {| cards := []; placeholder := Some "No past meetings." |}.
Proof.
  intros dfmt tfmt amb be be' w Hu Hl Hm w1 w2. subst w2 w1.
  rewrite (press_toggle dfmt tfmt amb be w Hu), Hm.
  rewrite press_signIn by (rewrite session_steps; cbn; assumption).
  rewrite session_steps. cbn [sessionAfter fold_left reduce negb set_useReal useReal].
  rewrite exec_handleLogin. unfold since.
  unfold App.
  rewrite !trace_steps, <- app_assoc, skipn_exact, !session_steps.
  cbn. repeat split.
Qed.

Lemma signIn_after_toggle_is_offline_witness :
  user (session (freshWorld "/")) = None /\
  loading (session (freshWorld "/")) = false /\
  useReal (session (freshWorld "/")) = true /\
  user (session (Sample.pressOn signInButton Sample.down Fixture.stubPage))
  = Some demoUser.
Proof.
  split; [reflexivity|]. split; [reflexivity|]. split; [reflexivity|].
  pose proof (signIn_after_toggle_is_offline (Sample.fmt "date") (Sample.fmt "time")
                Sample.amb Sample.down Sample.down (freshWorld "/")
                eq_refl eq_refl eq_refl) as H.
  cbv zeta in H. exact (proj1 (proj2 (proj2 H))).
Defined.

(** ** The mount effect *)

Lemma is_string_true_iff o s : is_string o s = true <-> o = Some s.
Proof.
  destruct o as [v|]; cbn.
  - rewrite String.eqb_eq. split; [now intros -> | now intros [= ->]].
  - split; discriminate.
Qed.

(** X14. Without the marker, or in stub mode, the mount effect only
    reads the URL: no state cell, no navigation target and no URL
    changes, and no service is entered. *)
Theorem mount_without_marker_is_inert {browser : Browser} :
  forall (be : Backend) (mode : bool) (w : World),
    params_get (URLSearchParams (search_of (location w))) "status" <> Some "success"
    \/ mode = false ->
    session (exec be (mountEffect mode) w) = session w /\
    location (exec be (mountEffect mode) w) = location w /\
    navigation (exec be (mountEffect mode) w) = navigation w /\
    ops (since w (exec be (mountEffect mode) w)) = [GetLocationSearch].
Proof.
  intros be mode w H.
  assert (Hc : hasMarker (location w) && mode = false).
  { destruct H as [H | ->]; [|apply andb_false_r].
    unfold hasMarker.
    destruct (is_string _ "success") eqn:E; [|reflexivity].
    apply is_string_true_iff in E. contradiction. }
  unfold exec. rewrite (run_mountEffect_plain be mode w Hc). cbn [snd].
  rewrite since_steps. repeat split.
Qed.

Lemma mount_without_marker_is_inert_witness :
  params_get (URLSearchParams (search_of (location (freshWorld "/?status=pending"))))
    "status" <> Some "success" /\
  session (exec Sample.healthy (mountEffect true) (freshWorld "/?status=pending"))
  = initialSession /\
  location (exec Sample.healthy (mountEffect true) (freshWorld "/?status=pending"))
  = "/?status=pending".
Proof.
  assert (H : params_get (URLSearchParams
                (search_of (location (freshWorld "/?status=pending")))) "status"
              <> Some "success") by discriminate.
  split; [exact H|].
  destruct (mount_without_marker_is_inert Sample.healthy true
              (freshWorld "/?status=pending") (or_introl H)) as [H1 [H2 _]].
  split; [exact H1 | exact H2].
Defined.

(** X15. Calling [handleLogin] without awaiting it changes when the
    URL is rewritten, not what the handler does: on a URL with the
    marker, the mount effect in real mode leaves the session state and
    the navigation target that a plain run of [handleLogin] leaves, and
    its steps, apart from reading and rewriting the URL, are that run's
    steps in the same order. *)
Theorem mount_runs_handleLogin {browser : Browser} :
  forall (be : Backend) (w : World),
    params_get (URLSearchParams (search_of (location w))) "status" = Some "success" ->
    session (exec be (mountEffect true) w) = session (exec be (handleLogin true) w) /\
    navigation (exec be (mountEffect true) w)
    = navigation (exec be (handleLogin true) w) /\
    filter (fun o => negb (isMountOnly o)) (ops (since w (exec be (mountEffect true) w)))
    = ops (since w (exec be (handleLogin true) w)).
Proof.
  intros be w H.
  assert (Hm : hasMarker (location w) = true)
    by (unfold hasMarker; now apply is_string_true_iff).
  rewrite (exec_mountEffect_marker be w Hm), exec_handleLogin.
  rewrite !since_steps, !session_steps.
  scripts. by_answer be; repeat split.
Qed.

Lemma mount_runs_handleLogin_witness :
  params_get (URLSearchParams (search_of (location (freshWorld "/?status=success"))))
    "status" = Some "success" /\
  session (exec Sample.healthy (mountEffect true) (freshWorld "/?status=success"))
  = session (exec Sample.healthy (handleLogin true) (freshWorld "/?status=success")).
Proof.
  split; [reflexivity|].
  exact (proj1 (mount_runs_handleLogin Sample.healthy
                  (freshWorld "/?status=success") eq_refl)).
Defined.

(** ** The view *)

(** X16. The dashboard gives every meeting of the collection one card,
    in the order of the collection, and a section shows its placeholder
    line exactly when its sequence is empty. *)
Theorem dashboard_one_card_per_meeting :
  forall dfmt tfmt amb (s : Session) (u : User),
    user s = Some u ->
    exists up pa : Section_,
      upcomingSectionOf (App dfmt tfmt amb s) = Some up /\
      pastSectionOf (App dfmt tfmt amb s) = Some pa /\
      cards up = map (MeetingCard dfmt tfmt amb) (upcoming (data s)) /\
      cards pa = map (MeetingCard dfmt tfmt amb) (past (data s)) /\
      map card_title (cards up) = map title (upcoming (data s)) /\
      map card_title (cards pa) = map title (past (data s)) /\
      (placeholder up = Some "No upcoming meetings." <-> upcoming (data s) = []) /\
      (placeholder up = None <-> upcoming (data s) <> []) /\
      (placeholder pa = Some "No past meetings." <-> past (data s) = []) /\
      (placeholder pa = None <-> past (data s) <> []).
Proof.
  intros dfmt tfmt amb s u Hu. unfold App. rewrite Hu.
  eexists. eexists. split; [reflexivity|]. split; [reflexivity|].
  cbn [cards placeholder meetingSection].
  split; [reflexivity|]. split; [reflexivity|].
  rewrite !map_map. cbn [card_title MeetingCard].
  split; [reflexivity|]. split; [reflexivity|].
  destruct (upcoming (data s)), (past (data s)); cbn;
    repeat split; intros; try discriminate; try reflexivity; congruence.
Qed.

Lemma dashboard_one_card_per_meeting_witness :
  user (session Sample.loggedIn) = Some Sample.alice /\
  exists up pa : Section_,
    upcomingSectionOf (Sample.view (session Sample.loggedIn)) = Some up /\
    pastSectionOf (Sample.view (session Sample.loggedIn)) = Some pa /\
    map card_title (cards up) = ["Standup"] /\
    map card_title (cards pa) = ["Retro"] /\
    placeholder up = None.
Proof.
  split; [reflexivity|].
  destruct (dashboard_one_card_per_meeting (Sample.fmt "date") (Sample.fmt "time")
              Sample.amb (session Sample.loggedIn) Sample.alice eq_refl)
    as [up [pa [H1 [H2 [_ [_ [H5 [H6 [_ [H8 _]]]]]]]]]].
  exists up, pa. split; [exact H1|]. split; [exact H2|].
  split; [exact H5|]. split; [exact H6|].
  assert (Hne : upcoming (data (session Sample.loggedIn)) <> [])
    by (intros E; vm_compute in E; discriminate E).
  exact (proj2 H8 Hne).
Defined.

(** X17. The error box appears exactly when no user is set and the
    error cell holds a non-empty message; the dashboard never shows one,
    whatever the error cell holds. *)
Theorem error_shown_iff :
  forall dfmt tfmt amb (s : Session) (m : string),
    shownError (App dfmt tfmt amb s) = Some m <->
    user s = None /\ error s = Some m /\ m <> "".
Proof.
  intros dfmt tfmt amb s m. unfold App.
  destruct (user s) as [u|]; cbn [shownError].
  - split; [discriminate | intros [H _]; discriminate].
  - destruct (error s) as [[|c r]|]; cbn [truthy]; split.
    + discriminate.
    + intros [_ [[= <-] H]]. now contradiction H.
    + intros [= <-]. repeat split. discriminate.
    + intros [_ [[= <-] _]]. reflexivity.
    + discriminate.
    + intros [_ [H _]]. discriminate.
Qed.

Lemma error_shown_iff_witness :
  shownError (Sample.view (session Fixture.afterFailure)) = Some connectionFailed /\
  user (session Fixture.afterFailure) = None.
Proof.
  split; [reflexivity|].
  exact (proj1 (proj1 (error_shown_iff (Sample.fmt "date") (Sample.fmt "time")
                         Sample.amb (session Fixture.afterFailure) connectionFailed)
                  eq_refl)).
Defined.

(** X18. A successful real-mode sign-in from the login screen ends on
    the dashboard showing the fetched collection: the user and the
    collection are stored, no error is kept from before, and the cards on
    screen are those of the fetched meetings, upcoming first. *)
Theorem signIn_success_shows_fetched {browser : Browser} :
  forall dfmt tfmt amb (be : Backend) (w : World)
         (res : Response AuthLogin) (ld : LoginData) (u : User)
         (res' : Response ApiMeetings) (d : MeetingData),
    user (session w) = None -> loading (session w) = false ->
    useReal (session w) = true ->
    be AuthLogin = Some res -> body res = Some ld -> data_user ld = Some u ->
    be ApiMeetings = Some res' ->
    (200 <= status res')%nat -> (status res' <= 299)%nat -> body res' = Some d ->
    let w' := press signInButton dfmt tfmt amb be w in
    user (session w') = Some u /\
    data (session w') = d /\
    error (session w') = None /\
    loading (session w') = false /\
    isLoginScreen (App dfmt tfmt amb (session w')) = false /\
    shownCards (App dfmt tfmt amb (session w'))
    = map (MeetingCard dfmt tfmt amb) (upcoming d ++ past d).
Proof.
  intros dfmt tfmt amb be w res ld u res' d Hu Hl Hm H1 H2 H3 H4 H5 H6 H7 w'.
  subst w'. rewrite (press_signIn dfmt tfmt amb be w Hu Hl), Hm.
  pose proof (loginAnswer_user be res ld u H1 H2 H3) as Ha.
  assert (Hb : meetingsAnswer be = GaveMeetings d).
  { unfold meetingsAnswer. rewrite H4.
    assert (Hok : ok res' = true) by (apply ok_iff; auto).
    rewrite Hok. cbn in H7 |- *. now rewrite H7. }
  rewrite exec_handleLogin. unfold App. rewrite session_steps.
  scripts. rewrite Ha, Hb. cbn. rewrite map_app. repeat split.
Qed.

Lemma signIn_success_shows_fetched_witness :
  user (session Fixture.afterFailure) = None /\
  loading (session Fixture.afterFailure) = false /\
  useReal (session Fixture.afterFailure) = true /\
  error (session Fixture.afterFailure) = Some connectionFailed /\
  error (session (Sample.pressOn signInButton Sample.healthy Fixture.afterFailure))
  = None /\
  data (session (Sample.pressOn signInButton Sample.healthy Fixture.afterFailure))
  = Sample.meetings.
Proof.
  split; [reflexivity|]. split; [reflexivity|]. split; [reflexivity|].
  split; [reflexivity|].
  pose proof (signIn_success_shows_fetched (Sample.fmt "date") (Sample.fmt "time")
                Sample.amb Sample.healthy Fixture.afterFailure
                {| status := 200;
                   body := Some ({| data_user := Some Sample.alice;
                                    data_authUrl := None |} : Payload AuthLogin) |}
                {| data_user := Some Sample.alice; data_authUrl := None |}
                Sample.alice
                {| status := 200;
                   body := Some (Sample.meetings : Payload ApiMeetings) |}
                Sample.meetings
                eq_refl eq_refl eq_refl eq_refl eq_refl eq_refl eq_refl) as H.
  assert (Hlo : (200 <= 200)%nat) by apply le_n.
  assert (Hhi : (200 <= 299)%nat) by (apply Nat.leb_le; reflexivity).
  specialize (H Hlo Hhi eq_refl). cbv zeta in H.
  destruct H as [_ [H2 [H3 _]]]. split; [exact H3 | exact H2].
Defined.

(** ** The marker in the URL *)

Lemma plain_cons c r : plain (String c r) = true ->
  Ascii.eqb c "#" = false /\ Ascii.eqb c "&" = false /\
  Ascii.eqb c "+" = false /\ Ascii.eqb c "%" = false /\ plain r = true.
Proof.
  cbn. unfold plainChar. rewrite andb_true_iff, negb_true_iff, !orb_false_iff.
  tauto.
Qed.

Lemma take_until_hash_plain v : plain v = true -> take_until "#" v = v.
Proof.
  induction v as [|c r IH]; [reflexivity|]. intros H.
  apply plain_cons in H. destruct H as [H1 [_ [_ [_ Hr]]]].
  cbn. rewrite H1, IH; auto.
Qed.

Lemma split_on_amp_plain v : plain v = true -> split_on "&" v = [v].
Proof.
  induction v as [|c r IH]; [reflexivity|]. intros H.
  apply plain_cons in H. destruct H as [_ [H2 [_ [_ Hr]]]].
  cbn. rewrite H2, IH; auto.
Qed.

Lemma form_decode_plain v : plain v = true -> form_decode v = v.
Proof.
  induction v as [|c r IH]; [reflexivity|]. intros H.
  apply plain_cons in H. destruct H as [_ [_ [H3 [H4 Hr]]]].
  cbn. rewrite H3, H4, IH; auto.
Qed.

Lemma hasMarker_status v :
  plain v = true -> hasMarker ("/?status=" ++ v) = String.eqb v "success".
Proof.
  intros H. unfold hasMarker, search_of. cbn.
  rewrite (take_until_hash_plain v H). cbn.
  unfold URLSearchParams. rewrite (split_on_amp_plain v H). cbn.
  unfold parse_pair. cbn. now rewrite (form_decode_plain v H).
Qed.

(** X19. The marker test is exact.  When the page loads at
    [/?status=v], with [v] free of separators and escapes, the mount
    effect enters [login] once if [v] is the text [success], and not at
    all for any other value. *)
Theorem marker_value_exact {browser : Browser} :
  forall (be : Backend) (v : string),
    plain v = true ->
    occurrences (isEnter FnLogin) (trace (mount be ("/?status=" ++ v)))
    = (if String.eqb v "success" then 1 else 0).
Proof.
  intros be v H. pose proof (hasMarker_status v H) as Hm.
  destruct (String.eqb v "success").
  - rewrite (mount_marker be _ Hm), trace_steps.
    cbn [trace freshWorld app session].
    scripts. by_answer be; reflexivity.
  - unfold mount, exec.
    rewrite (run_mountEffect_plain be (useReal initialSession) (freshWorld _)).
    + reflexivity.
    + cbn [location freshWorld]. now rewrite Hm.
Qed.

Lemma marker_value_exact_witness :
  plain "Success" = true /\
  occurrences (isEnter FnLogin) (trace (mount Sample.healthy "/?status=Success")) = 0 /\
  occurrences (isEnter FnLogin) (trace (mount Sample.healthy "/?status=success")) = 1.
Proof.
  split; [reflexivity|]. split.
  - exact (marker_value_exact Sample.healthy "Success" eq_refl).
  - exact (marker_value_exact Sample.healthy "success" eq_refl).
Defined.

(** ** More on the services and the handler *)

(** X20. [login] logs what it throws: in real mode it rejects with an
    error exactly when it has written that same error to the console
    under the label [Login Error:], and it writes to the console at most
    once. *)
Theorem login_logs_what_it_throws {browser : Browser} :
  forall (be : Backend) (w : World) (e : JsError),
    (fst (run be (login true) w) = Rejected e <->
     In (ConsoleError "Login Error:" e) (ops (since w (exec be (login true) w)))) /\
    (occurrences isConsoleError (since w (exec be (login true) w)) <= 1)%nat.
Proof.
  intros be w e.
  rewrite login_outcome_any_world, exec_login_real, since_steps.
  unfold loginOutcome, loginScript.
  destruct (loginAnswer be) as [u|t|t|e']; cbn.
  - split; [split|auto].
    + discriminate.
    + intros [H|[H|[]]]; discriminate H.
  - split; [split|auto].
    + discriminate.
    + intros [H|[H|[H|[H|[]]]]]; discriminate H.
  - split; [split|auto].
    + intros [= <-]. auto.
    + intros [H|[H|[H|[H|[]]]]]; try discriminate H. now injection H as <-.
  - split; [split|auto].
    + intros [= ->]. auto.
    + intros [H|[H|[H|[]]]]; try discriminate H. now injection H as ->.
Qed.

Lemma login_logs_what_it_throws_witness :
  fst (run Sample.confused (login true) (freshWorld "/"))
  = Rejected (Error "Server returned invalid login state") /\
  In (ConsoleError "Login Error:" (Error "Server returned invalid login state"))
     (ops (since (freshWorld "/") (exec Sample.confused (login true) (freshWorld "/")))).
Proof.
  split; [reflexivity|].
  exact (proj1 (proj1 (login_logs_what_it_throws Sample.confused (freshWorld "/")
                         (Error "Server returned invalid login state")))
           eq_refl).
Defined.

(** X21. [fetchMeetings] checks the status before it reads the body:
    in real mode it rejects with the error [Failed to fetch] exactly when
    a response arrived whose status is outside 200 to 299, whether or not
    that response carries a well-formed collection. *)
Theorem fetchMeetings_bad_status {browser : Browser} :
  forall (be : Backend) (w : World),
    fst (run be (fetchMeetings true) w) = Rejected (Error "Failed to fetch") <->
    exists res : Response ApiMeetings,
      be ApiMeetings = Some res /\
      ((status res < 200)%nat \/ (299 < status res)%nat).
Proof.
  intros be w. rewrite fetchMeetings_outcome_any_world. unfold meetingsAnswer.
  split.
  - destruct (be ApiMeetings) as [res|]; [|discriminate].
    destruct (ok res) eqn:Hok.
    + destruct (body res); discriminate.
    + intros _. exists res. split; [reflexivity|].
      unfold ok in Hok. apply andb_false_iff in Hok.
      rewrite !Nat.leb_gt in Hok. exact Hok.
  - intros [res [H Hs]]. rewrite H.
    assert (Hok : ok res = false).
    { unfold ok. apply andb_false_iff. now rewrite !Nat.leb_gt. }
    now rewrite Hok.
Qed.

Lemma fetchMeetings_bad_status_witness :
  fst (run Fixture.meetings404WithBody (fetchMeetings true) (freshWorld "/"))
  = Rejected (Error "Failed to fetch") /\
  Fixture.meetings404WithBody ApiMeetings
  = Some {| status := 404; body := Some (Sample.meetings : Payload ApiMeetings) |}.
Proof.
  split; [|reflexivity].
  apply (proj2 (fetchMeetings_bad_status Fixture.meetings404WithBody (freshWorld "/"))).
  exists {| status := 404; body := Some (Sample.meetings : Payload ApiMeetings) |}.
  split; [reflexivity|]. right. apply Nat.leb_le. reflexivity.
Defined.

(** X22. [handleLogin] brackets its work with the loading flag: its
    first two steps set [loading] and clear the error, before any service
    is entered, its last step clears [loading], and it writes [loading]
    at no other point. *)
Theorem handleLogin_brackets {browser : Browser} :
  forall (be : Backend) (mode : bool) (w : World),
    firstn 2 (ops (since w (exec be (handleLogin mode) w)))
    = [SetLoading true; SetError None] /\
    last (ops (since w (exec be (handleLogin mode) w))) (SetLoading true)
    = SetLoading false /\
    occurrences isSetLoading (since w (exec be (handleLogin mode) w)) = 2.
Proof.
  intros be mode w. rewrite exec_handleLogin, since_steps.
  destruct mode.
  - scripts. by_answer be; repeat split.
  - repeat split.
Qed.

(** ** More on the card *)

(** X23. A card shows the start, the title, the number of guests and
    whether there is a link, and nothing else of the meeting: two
    meetings that agree on these four render the same card, whatever
    their ids, ends, descriptions, guest addresses and link targets; and
    the video mark is set exactly for a non-empty link. *)
Theorem MeetingCard_shows_only :
  forall dfmt tfmt amb (m1 m2 : Meeting),
    startTime m1 = startTime m2 ->
    title m1 = title m2 ->
    length (attendees m1) = length (attendees m2) ->
    truthy (link m1) = truthy (link m2) ->
    MeetingCard dfmt tfmt amb m1 = MeetingCard dfmt tfmt amb m2 /\
    (card_video (MeetingCard dfmt tfmt amb m1) = true <->
     exists l, link m1 = Some l /\ l <> "").
Proof.
  intros dfmt tfmt amb m1 m2 Hs Ht Ha Hl. split.
  - unfold MeetingCard. now rewrite Hs, Ht, Ha, Hl.
  - cbn [card_video MeetingCard].
    destruct (link m1) as [[|c r]|]; cbn [truthy]; split.
    + discriminate.
    + intros [l [[= <-] H]]. now contradiction H.
    + intros _. eexists. split; [reflexivity | discriminate].
    + reflexivity.
    + discriminate.
    + intros [l [H _]]. discriminate.
Qed.

Lemma MeetingCard_shows_only_witness :
  id Sample.standup <> id Fixture.standupTwin /\
  link Sample.standup <> link Fixture.standupTwin /\
  MeetingCard (Sample.fmt "date") (Sample.fmt "time") Sample.amb Sample.standup
  = MeetingCard (Sample.fmt "date") (Sample.fmt "time") Sample.amb Fixture.standupTwin.
Proof.
  split; [discriminate|]. split; [discriminate|].
  exact (proj1 (MeetingCard_shows_only (Sample.fmt "date") (Sample.fmt "time")
                  Sample.amb Sample.standup Fixture.standupTwin
                  eq_refl eq_refl eq_refl eq_refl)).
Defined.
